(** * Posture checker: angle geometry, side selection and the per-frame
      posture state machine of [main.py].

    Python floats are read as real numbers ([R]): angles, landmark
    coordinates, visibilities and wall-clock timestamps.  Rounding is not
    modelled.  The state dictionary of [main] is a record that is threaded
    through every call, and everything the frame handlers play, print or draw
    is collected in an event list. *)

From Stdlib Require Import Ascii String DecimalString.
From Stdlib Require Import Reals Lra Psatz List ZArith Lia Bool.
Import ListNotations.

Open Scope R_scope.

(** ** Comparisons of reals as booleans *)

Definition Rltb (a b : R) : bool := if Rlt_dec a b then true else false.
Definition Rleb (a b : R) : bool := if Rle_dec a b then true else false.
Definition Reqb (a b : R) : bool := if Req_dec_T a b then true else false.

(** ** Constants (main.py, lines 35-40) *)

Definition POSTURE_THRESHOLD : R := 130.
Definition STAND_THRESHOLD : R := 170.
Definition MAX_COUNTER : Z := 3.
Definition DETECTION_COOLDOWN : R := 5.
Definition VIS_THRESH : R := 1 / 2.
Definition SIT_LIMIT_SEC : R := 3600.

(** ** Landmarks *)

Record Landmark : Type := mkLandmark {
  lm_x : R;
  lm_y : R;
  lm_z : R;
  visibility : R
}.

(** The indices of [mp_pose.PoseLandmark] that the program reads. *)
Definition NOSE : nat := 0.
Definition LEFT_SHOULDER : nat := 11.
Definition RIGHT_SHOULDER : nat := 12.
Definition LEFT_HIP : nat := 23.
Definition RIGHT_HIP : nat := 24.
Definition LEFT_KNEE : nat := 25.
Definition RIGHT_KNEE : nat := 26.

Inductive Side : Type := Left | Right.

(** ** Angle geometry *)

(** [math.atan2 y x] on reals (signed zeros are not distinguished). *)
Definition atan2 (y x : R) : R :=
  if Rltb 0 x then atan (y / x)
  else if Rltb x 0 then
    (if Rleb 0 y then atan (y / x) + PI else atan (y / x) - PI)
  else if Rltb 0 y then PI / 2
  else if Rltb y 0 then - (PI / 2)
  else 0.

(** [math.degrees]. *)
Definition degrees (r : R) : R := r * 180 / PI.

(** [calculate_angle] (lines 53-59). *)
Definition calculate_angle (a b c : R * R) : R :=
  let ang :=
    degrees (atan2 (snd c - snd b) (fst c - fst b)
             - atan2 (snd a - snd b) (fst a - fst b)) in
  Rabs (if Rltb ang 180 then ang else 360 - ang).

(** [min] of three floats, as Python's [min(a, b, c)]. *)
Definition min3 (a b c : R) : R := Rmin (Rmin a b) c.

(** [get_angle] (lines 61-69): an index out of range (the caught
    [IndexError]) and a landmark below the visibility threshold both give
    the sentinel 0. *)
Definition get_angle (i j k : nat) (lms : list Landmark) (v : R) : R :=
  match nth_error lms i, nth_error lms j, nth_error lms k with
  | Some la, Some lb, Some lc =>
      if Rltb (min3 (visibility la) (visibility lb) (visibility lc)) v
      then 0
      else calculate_angle (lm_x la, lm_y la) (lm_x lb, lm_y lb)
                           (lm_x lc, lm_y lc)
  | _, _, _ => 0
  end.

(** [choose_side] (lines 71-84).  The four shoulder and hip look-ups come
    first and the nose is looked up only when neither visibility nor depth
    decides; [None] stands for the [IndexError] of a look-up out of range. *)
Definition choose_side (lms : list Landmark) (v : R) : option Side :=
  match nth_error lms LEFT_SHOULDER, nth_error lms RIGHT_SHOULDER,
        nth_error lms LEFT_HIP, nth_error lms RIGHT_HIP with
  | Some Ls, Some Rs, Some Lh, Some Rh =>
      let vis_left := visibility Ls + visibility Lh in
      let vis_right := visibility Rs + visibility Rh in
      if Rleb (v * 2) vis_left && Rltb vis_right vis_left then Some Left
      else if Rleb (v * 2) vis_right && Rltb vis_left vis_right then Some Right
      else if Rltb (lm_z Ls) (lm_z Rs) then Some Left
      else if Rltb (lm_z Rs) (lm_z Ls) then Some Right
      else
        match nth_error lms NOSE with
        | Some nose =>
            let dL := (lm_x nose - lm_x Ls) ^ 2 + (lm_y nose - lm_y Ls) ^ 2 in
            let dR := (lm_x nose - lm_x Rs) ^ 2 + (lm_y nose - lm_y Rs) ^ 2 in
            Some (if Rltb dL dR then Left else Right)
        | None => None
        end
  | _, _, _, _ => None
  end.

(** ** Events

    What a frame handler does to the outside world: blocking one-shot
    [playsound] calls, [draw_text] overlays, console messages, and the start
    and join of the background thread that runs [play_ping_loop]. *)

Inductive Clip : Type :=
| reset_wav          (* "sound/reset.wav": the stand-up cue *)
| siren_short_wav    (* "sound/siren_short.wav": the bad-posture cue *)
| siren_long_wav.    (* "sound/siren_long.wav": played by the alert loop *)

Inductive Text : Type :=
| PostureCheckPaused
| BadPosture (count : Z)
| Standing
| GoodPosture (count : Z)
| StretchTime
| PleaseStretch
| NoDetection
| Deg1 (side : Side) (angle : R)
| Deg2 (side : Side) (angle : R).

Inductive Message : Type :=
| StretchReminder      (* printed once per sitting episode *)
| BadPostureWarning.   (* printed when the counter reaches MAX_COUNTER *)

Inductive Event : Type :=
| playsound (c : Clip)
| draw_text (t : Text)
| print (m : Message)
| thread_start       (* Thread(target=play_ping_loop).start() *)
| thread_join        (* ping_thread.join() *)
| draw_landmarks.

Definition is_sound (c : Clip) (e : Event) : bool :=
  match e, c with
  | playsound reset_wav, reset_wav => true
  | playsound siren_short_wav, siren_short_wav => true
  | playsound siren_long_wav, siren_long_wav => true
  | _, _ => false
  end.

Definition is_paused_text (e : Event) : bool :=
  match e with draw_text PostureCheckPaused => true | _ => false end.

Definition is_no_detection_text (e : Event) : bool :=
  match e with draw_text NoDetection => true | _ => false end.

Definition is_thread_start (e : Event) : bool :=
  match e with thread_start => true | _ => false end.

(** How many events of a log satisfy a test. *)
Definition count (p : Event -> bool) (evs : list Event) : nat :=
  length (filter p evs).

(** ** Session state: the [state] dictionary of [main] (lines 255-265) *)

Inductive Thread : Type := ping_loop_thread.

Record State : Type := mkState {
  bad_posture_count : Z;
  consecutive_bad_posture : Z;
  last_detection_time : R;
  sitting_start_time : option R;
  stretch_prompted : bool;
  prev_is_standing : bool;
  stand_up_time : option R;
  ping_thread : option Thread;
  ping_active : bool
}.

Definition initial_state : State :=
  {| bad_posture_count := 0;
     consecutive_bad_posture := 0;
     last_detection_time := 0;
     sitting_start_time := None;
     stretch_prompted := false;
     prev_is_standing := false;
     stand_up_time := None;
     ping_thread := None;
     ping_active := false |}.

(** Assignments to one key of the dictionary. *)
Definition set_bad_posture_count (n : Z) (s : State) : State :=
  mkState n (consecutive_bad_posture s) (last_detection_time s)
          (sitting_start_time s) (stretch_prompted s) (prev_is_standing s)
          (stand_up_time s) (ping_thread s) (ping_active s).

Definition set_consecutive_bad_posture (n : Z) (s : State) : State :=
  mkState (bad_posture_count s) n (last_detection_time s)
          (sitting_start_time s) (stretch_prompted s) (prev_is_standing s)
          (stand_up_time s) (ping_thread s) (ping_active s).

Definition set_last_detection_time (t : R) (s : State) : State :=
  mkState (bad_posture_count s) (consecutive_bad_posture s) t
          (sitting_start_time s) (stretch_prompted s) (prev_is_standing s)
          (stand_up_time s) (ping_thread s) (ping_active s).

Definition set_sitting_start_time (t : option R) (s : State) : State :=
  mkState (bad_posture_count s) (consecutive_bad_posture s)
          (last_detection_time s) t (stretch_prompted s) (prev_is_standing s)
          (stand_up_time s) (ping_thread s) (ping_active s).

Definition set_stretch_prompted (b : bool) (s : State) : State :=
  mkState (bad_posture_count s) (consecutive_bad_posture s)
          (last_detection_time s) (sitting_start_time s) b
          (prev_is_standing s) (stand_up_time s) (ping_thread s)
          (ping_active s).

Definition set_prev_is_standing (b : bool) (s : State) : State :=
  mkState (bad_posture_count s) (consecutive_bad_posture s)
          (last_detection_time s) (sitting_start_time s) (stretch_prompted s)
          b (stand_up_time s) (ping_thread s) (ping_active s).

Definition set_stand_up_time (t : option R) (s : State) : State :=
  mkState (bad_posture_count s) (consecutive_bad_posture s)
          (last_detection_time s) (sitting_start_time s) (stretch_prompted s)
          (prev_is_standing s) t (ping_thread s) (ping_active s).

Definition set_ping_thread (t : option Thread) (s : State) : State :=
  mkState (bad_posture_count s) (consecutive_bad_posture s)
          (last_detection_time s) (sitting_start_time s) (stretch_prompted s)
          (prev_is_standing s) (stand_up_time s) t (ping_active s).

Definition set_ping_active (b : bool) (s : State) : State :=
  mkState (bad_posture_count s) (consecutive_bad_posture s)
          (last_detection_time s) (sitting_start_time s) (stretch_prompted s)
          (prev_is_standing s) (stand_up_time s) (ping_thread s) b.

(** Python truth value of an optional timestamp: [None] and [0.0] are both
    false.  It yields the timestamp when the test succeeds. *)
Definition truthy (o : option R) : option R :=
  match o with
  | Some t => if Reqb t 0 then None else Some t
  | None => None
  end.

(** ** Frame handlers *)

(** [manage_sound_loop] (lines 135-146). *)
Definition manage_sound_loop (s : State) (should_be_active : bool)
  : State * list Event :=
  if should_be_active && negb (ping_active s) then
    (set_ping_thread (Some ping_loop_thread) (set_ping_active true s),
     [thread_start])
  else if negb should_be_active && ping_active s then
    let s1 := set_ping_active false s in
    match ping_thread s1 with
    | Some _ => (set_ping_thread None s1, [thread_join])
    | None => (s1, [])
    end
  else (s, []).

(** The sitting timer (lines 176-179). *)
Definition sitting_timer (now : R) (is_sit is_stand : bool) (s : State)
  : State :=
  let s1 :=
    match sitting_start_time s with
    | None =>
        if is_sit
        then set_stretch_prompted false (set_sitting_start_time (Some now) s)
        else s
    | Some _ => s
    end in
  if is_stand
  then set_stretch_prompted false (set_sitting_start_time None s1)
  else s1.

(** The transition into standing (lines 182-185). *)
Definition stand_up_transition (now : R) (is_stand : bool) (s : State)
  : State * list Event :=
  if is_stand && negb (prev_is_standing s) then
    (set_bad_posture_count 0 (set_stand_up_time (Some now) s),
     [playsound reset_wav])
  else (s, []).

(** The test of line 188: [stand_up_time] is truthy and less than ten
    seconds old. *)
Definition check_paused (now : R) (s : State) : bool :=
  match truthy (stand_up_time s) with
  | Some t => Rltb (now - t) 10
  | None => false
  end.

(** The test of line 191. *)
Definition bad_angle (sit : R) : bool :=
  Rltb sit POSTURE_THRESHOLD && negb (Reqb sit 0).

(** The slouch check (lines 188-204). *)
Definition posture_check (now sit : R) (is_stand : bool) (s : State)
  : State * list Event :=
  if check_paused now s then (s, [draw_text PostureCheckPaused])
  else if bad_angle sit then
    let s1 :=
      set_consecutive_bad_posture (consecutive_bad_posture s + 1) s in
    if (3 <=? consecutive_bad_posture s1)%Z
       && Rleb DETECTION_COOLDOWN (now - last_detection_time s1)
    then
      let s2 := set_bad_posture_count (bad_posture_count s1 + 1) s1 in
      let s3 := set_last_detection_time now s2 in
      let s4 := set_consecutive_bad_posture 0 s3 in
      (s4, [playsound siren_short_wav;
            draw_text (BadPosture (bad_posture_count s4))])
    else (s1, [draw_text (BadPosture (bad_posture_count s1))])
  else
    let s1 := set_consecutive_bad_posture 0 s in
    (s1, [draw_text (if is_stand then Standing
                     else GoodPosture (bad_posture_count s1))]).

(** The truth value of [is_stretch_time] (line 207). *)
Definition stretch_time (now : R) (is_sit : bool) (s : State) : bool :=
  is_sit &&
  match truthy (sitting_start_time s) with
  | Some t => Rleb SIT_LIMIT_SEC (now - t)
  | None => false
  end.

(** The stretch reminder (lines 208-212). *)
Definition stretch_prompt (is_stretch_time : bool) (s : State)
  : State * list Event :=
  if is_stretch_time then
    if stretch_prompted s then (s, [draw_text StretchTime])
    else (set_stretch_prompted true s,
          [print StretchReminder; draw_text StretchTime])
  else (s, []).

(** The notice for an exceeded counter (lines 214-218). *)
Definition exceeded_notice (is_bad_posture_exceeded : bool) (s : State)
  : list Event :=
  if is_bad_posture_exceeded then
    (if ping_active s then [] else [print BadPostureWarning])
    ++ [draw_text PleaseStretch]
  else [].

(** The classification of a frame (lines 168-173): [std0] is the knee-hip-
    shoulder angle as [get_angle] returns it, [sit] the nose-shoulder-hip
    angle. *)
Definition fold_std (std0 : R) : R :=
  if Rltb 180 std0 then 360 - std0 else std0.
Definition is_stand_of (std0 : R) : bool :=
  Rleb STAND_THRESHOLD (fold_std std0).
Definition is_sit_of (sit std0 : R) : bool :=
  negb (Reqb sit 0) && negb (is_stand_of std0).

(** The second half of [process_landmarks] (lines 168-230): everything that
    follows the two calls of [get_angle]. *)
Definition process_angles (now : R) (side : Side) (sit std0 : R) (s : State)
  : State * list Event :=
  let std := fold_std std0 in
  let is_stand := is_stand_of std0 in
  let is_sit := is_sit_of sit std0 in
  let s1 := sitting_timer now is_sit is_stand s in
  let (s2, e2) := stand_up_transition now is_stand s1 in
  let (s3, e3) := posture_check now sit is_stand s2 in
  let is_stretch_time := stretch_time now is_sit s3 in
  let (s4, e4) := stretch_prompt is_stretch_time s3 in
  let is_bad_posture_exceeded := (MAX_COUNTER <=? bad_posture_count s4)%Z in
  let e5 := exceeded_notice is_bad_posture_exceeded s4 in
  let (s5, e6) :=
    manage_sound_loop s4 (is_stretch_time || is_bad_posture_exceeded) in
  (set_prev_is_standing is_stand s5,
   e2 ++ e3 ++ e4 ++ e5 ++ e6
   ++ [draw_text (Deg1 side sit); draw_text (Deg2 side std); draw_landmarks]).

Definition shoulder (side : Side) : nat :=
  match side with Right => RIGHT_SHOULDER | Left => LEFT_SHOULDER end.
Definition hip (side : Side) : nat :=
  match side with Right => RIGHT_HIP | Left => LEFT_HIP end.
Definition knee (side : Side) : nat :=
  match side with Right => RIGHT_KNEE | Left => LEFT_KNEE end.

(** The two measurements of a frame (lines 156-167). *)
Definition sit_angle (side : Side) (lms : list Landmark) : R :=
  get_angle NOSE (shoulder side) (hip side) lms VIS_THRESH.
Definition stand_angle (side : Side) (lms : list Landmark) : R :=
  get_angle (knee side) (hip side) (shoulder side) lms VIS_THRESH.

(** [process_landmarks] (lines 148-230) at clock reading [now]; [None] is
    the uncaught [IndexError] of [choose_side].  The drawing calls are
    recorded as events; an exception raised inside the drawing library (as
    [draw_landmarks] does on a snapshot that lacks an index of
    [POSE_CONNECTIONS]) is not modelled, so the results hold for the
    snapshots of 33 landmarks that the pose model delivers. *)
Definition process_landmarks (now : R) (lms : list Landmark) (s : State)
  : option (State * list Event) :=
  match choose_side lms VIS_THRESH with
  | Some side =>
      Some (process_angles now side (sit_angle side lms)
                           (stand_angle side lms) s)
  | None => None
  end.

(** [handle_no_detection] (lines 232-242). *)
Definition handle_no_detection (s : State) : State * list Event :=
  let s1 := set_sitting_start_time None s in
  let s2 := set_stretch_prompted false s1 in
  let s3 := set_consecutive_bad_posture 0 s2 in
  let s4 := set_prev_is_standing false s3 in
  let (s5, e) := manage_sound_loop s4 false in
  (s5, draw_text NoDetection :: e).

(** One turn of the main loop (lines 293-296): [results.pose_landmarks] is
    either a landmark list or absent. *)
Definition Frame : Type := option (list Landmark).

Definition process_frame (now : R) (f : Frame) (s : State)
  : option (State * list Event) :=
  match f with
  | Some lms => process_landmarks now lms s
  | None => Some (handle_no_detection s)
  end.

(** A run of the main loop over timestamped frames, with the events of all
    frames in order. *)
Fixpoint run (frames : list (R * Frame)) (s : State)
  : option (State * list Event) :=
  match frames with
  | [] => Some (s, [])
  | (now, f) :: rest =>
      match process_frame now f s with
      | Some (s1, e1) =>
          match run rest s1 with
          | Some (s2, e2) => Some (s2, e1 ++ e2)
          | None => None
          end
      | None => None
      end
  end.

(** States that the main loop can be in after a frame taken at clock
    reading [t], for a clock that is positive and never runs backwards. *)
Inductive reachable : R -> State -> Prop :=
| reach_init : reachable 0 initial_state
| reach_frame (t now : R) (f : Frame) (s s1 : State) (evs : list Event) :
    reachable t s -> t <= now -> 0 < now ->
    process_frame now f s = Some (s1, evs) ->
    reachable now s1.

(** The test of line 188 in the state it is evaluated in, that is after the
    stand-up transition of the same frame. *)
Definition suppressed (now std0 : R) (s : State) : bool :=
  check_paused now (fst (stand_up_transition now (is_stand_of std0) s)).

(** The stand-up edge of a frame (the test of line 182). *)
Definition stand_up_edge (std0 : R) (s : State) : bool :=
  is_stand_of std0 && negb (prev_is_standing s).

(** The tests that guard a debounced detection (lines 188, 191 and 193),
    read in the state the frame starts in. *)
Definition detection_fires (now sit std0 : R) (s : State) : bool :=
  negb (suppressed now std0 s) && bad_angle sit
  && (3 <=? consecutive_bad_posture s + 1)%Z
  && Rleb DETECTION_COOLDOWN (now - last_detection_time s).

(** What the timestamps and the counter of a state satisfy after a frame
    taken at clock reading [t]: stored timestamps are positive clock
    readings of the past, and a positive counter was last raised at least
    ten seconds after the stored stand-up time. *)
Definition timestamps_ok (t : R) (s : State) : Prop :=
  (forall u, stand_up_time s = Some u -> 0 < u <= t) /\
  (forall u, sitting_start_time s = Some u -> 0 < u <= t) /\
  (0 <= bad_posture_count s)%Z /\
  ((0 < bad_posture_count s)%Z ->
   last_detection_time s <= t /\
   forall u, stand_up_time s = Some u -> 10 <= last_detection_time s - u).

(** ** The side selection rule as a relation

    The measurements the rule compares, per side. *)
Section SideRule.
Variable v : R.
Variables nose Ls Rs Lh Rh : Landmark.

Definition other (side : Side) : Side :=
  match side with Left => Right | Right => Left end.

Definition side_vis (side : Side) : R :=
  match side with
  | Left => visibility Ls + visibility Lh
  | Right => visibility Rs + visibility Rh
  end.

Definition side_depth (side : Side) : R :=
  match side with Left => lm_z Ls | Right => lm_z Rs end.

Definition side_dist (side : Side) : R :=
  match side with
  | Left => (lm_x nose - lm_x Ls) ^ 2 + (lm_y nose - lm_y Ls) ^ 2
  | Right => (lm_x nose - lm_x Rs) ^ 2 + (lm_y nose - lm_y Rs) ^ 2
  end.

(** The rule in the words of the specification: a side is dominant when
    its combined visibility exceeds [2v] and strictly exceeds the other
    side's; otherwise the nearer shoulder wins; otherwise the shoulder
    closer to the nose (the wording leaves a tie of distances open, so
    either side is admitted there). *)
Definition spec_dominant (side : Side) : Prop :=
  2 * v < side_vis side /\ side_vis (other side) < side_vis side.

Definition spec_selects (side : Side) : Prop :=
  spec_dominant side \/
  (~ spec_dominant Left /\ ~ spec_dominant Right /\
   (side_depth side < side_depth (other side) \/
    (side_depth side = side_depth (other side) /\
     side_dist side <= side_dist (other side)))).

(** The rule with the first test read as "at least [2v]" and a tie of
    distances given to the right side. *)
Definition dominant (side : Side) : Prop :=
  v * 2 <= side_vis side /\ side_vis (other side) < side_vis side.

Definition selects (side : Side) : Prop :=
  dominant side \/
  (~ dominant Left /\ ~ dominant Right /\
   (side_depth side < side_depth (other side) \/
    (side_depth side = side_depth (other side) /\
     (side_dist side < side_dist (other side) \/
      (side_dist side = side_dist (other side) /\ side = Right))))).
End SideRule.

(** ** Sample poses

    A pose with the seven landmarks the program reads at their indices and
    invisible landmarks everywhere else. *)
Definition hidden : Landmark := mkLandmark 0 0 0 0.
Definition at_xy (x y : R) : Landmark := mkLandmark x y 0 1.

Definition pose (nose Ls Rs Lh Rh Lk Rk : Landmark) : list Landmark :=
  nose :: repeat hidden 10 ++ [Ls; Rs] ++ repeat hidden 10
       ++ [Lh; Rh; Lk; Rk] ++ repeat hidden 6.

(** Left side towards the camera, trunk and thigh in one vertical line,
    head pushed forward: standing, with a nose-shoulder-hip angle of 90. *)
Definition standing_slouched : list Landmark :=
  pose (at_xy 1 0) (at_xy 0 0) hidden (at_xy 0 1) hidden (at_xy 0 2) hidden.

(** Thigh horizontal, head pushed forward: sitting with an angle of 90. *)
Definition sitting_slouched : list Landmark :=
  pose (at_xy 1 0) (at_xy 0 0) hidden (at_xy 0 1) hidden (at_xy 1 1) hidden.

(** Thigh horizontal, head above the shoulder: sitting with an angle of
    180. *)
Definition sitting_upright : list Landmark :=
  pose (at_xy 0 (-1)) (at_xy 0 0) hidden (at_xy 0 1) hidden (at_xy 1 1) hidden.

(** Shoulder and hip visible, nose and knee not: both angles unknown. *)
Definition torso_only : list Landmark :=
  pose hidden (at_xy 0 0) hidden (at_xy 0 1) hidden hidden hidden.

(** Left side exactly at the visibility threshold, right shoulder nearer. *)
Definition borderline_left : list Landmark :=
  pose (at_xy 0 0)
       (mkLandmark 0 0 1 (1 / 2)) (mkLandmark 0 0 0 (1 / 4))
       (mkLandmark 0 1 0 (1 / 2)) (mkLandmark 0 1 0 (1 / 4))
       hidden hidden.

(** ** More tests on events *)

Definition is_thread_join (e : Event) : bool :=
  match e with thread_join => true | _ => false end.

Definition is_stretch_reminder (e : Event) : bool :=
  match e with print StretchReminder => true | _ => false end.

(** ** The timer text

    Python's [//] and [%] on floats for a positive divisor, and [int] on a
    float (truncation towards zero), read on reals.  For operands that are
    not negative the float operations are exact; for a negative operand the
    float [%] can round up to the divisor itself, which the reals do not
    show, so the properties below are stated for times that are not
    negative. *)
Definition floordiv (a b : R) : R := IZR (Zfloor (a / b)).
Definition pymod (a b : R) : R := a - b * IZR (Zfloor (a / b)).
Definition trunc (r : R) : Z :=
  if Rleb 0 r then Zfloor r else (- Zfloor (- r))%Z.

(** The format [:02d]: decimal digits with a minus sign for negative
    numbers, filled with zeros up to a width of two. *)
Definition fmt02d (z : Z) : string :=
  let d := NilZero.string_of_int (Z.to_int z) in
  if (String.length d <? 2)%nat then ("0" ++ d)%string else d.

(** The three fields of [hms] (lines 93-95). *)
Definition hms_hours (sec : R) : Z := trunc (floordiv sec 3600).
Definition hms_minutes (sec : R) : Z := trunc (floordiv (pymod sec 3600) 60).
Definition hms_seconds (sec : R) : Z := trunc (pymod sec 60).

(** The character of a decimal digit. *)
Definition digit (z : Z) : ascii := ascii_of_nat (48 + Z.to_nat z).

(** [hms] (lines 93-95). *)
Definition hms (sec : R) : string :=
  (fmt02d (hms_hours sec) ++ ":" ++ fmt02d (hms_minutes sec) ++ ":"
   ++ fmt02d (hms_seconds sec))%string.

(** The text of the timer that [main] draws after every frame (lines
    298-304), at the clock reading [now] of line 301. *)
Definition timer_text (now : R) (s : State) : string :=
  match truthy (sitting_start_time s) with
  | Some t => ("Sitting " ++ hms (now - t))%string
  | None => "Standing 00:00:00"%string
  end.

(** ** The main loop (lines 255-312)

    What [main] puts out: the events of the frame handlers and the timer
    text.  Camera frames that are missing are skipped by the loop and do not
    appear; a frame comes with the clock reading of its handler and the
    clock reading of the timer. *)
Inductive Output : Type :=
| handler_event (e : Event)
| timer (text : string).

Definition main_frame (now now' : R) (f : Frame) (s : State)
  : option (State * list Output) :=
  match process_frame now f s with
  | Some (s1, evs) =>
      Some (s1, map handler_event evs ++ [timer (timer_text now' s1)])
  | None => None
  end.

Fixpoint main_loop (frames : list (R * R * Frame)) (s : State)
  : option (State * list Output) :=
  match frames with
  | [] => Some (s, [])
  | (now, now', f) :: rest =>
      match main_frame now now' f s with
      | Some (s1, o1) =>
          match main_loop rest s1 with
          | Some (s2, o2) => Some (s2, o1 ++ o2)
          | None => None
          end
      | None => None
      end
  end.

(** [main] from the initial state to the final [manage_sound_loop] of line
    312, for the frames seen until the quit key; [None] is an exception that
    leaves the loop. *)
Definition main (frames : list (R * R * Frame))
  : option (State * list Output) :=
  match main_loop frames initial_state with
  | Some (s, out) =>
      let (s', evs) := manage_sound_loop s false in
      Some (s', out ++ map handler_event evs)
  | None => None
  end.

(** The handler events among the outputs. *)
Fixpoint handler_events (out : list Output) : list Event :=
  match out with
  | [] => []
  | handler_event e :: rest => e :: handler_events rest
  | timer _ :: rest => handler_events rest
  end.

(** ** The handle of the alert thread

    The state keeps a thread handle exactly while the alert loop is
    active. *)
Definition handle_ok (s : State) : Prop :=
  ping_thread s = if ping_active s then Some ping_loop_thread else None.

(** 1 while the alert loop is active, 0 otherwise. *)
Definition running (s : State) : nat := if ping_active s then 1 else 0.

(** * Properties *)

(** ** Comparisons *)

Lemma Rltb_true (a b : R) : a < b -> Rltb a b = true.
Proof. intros H. unfold Rltb. destruct (Rlt_dec a b); [reflexivity | contradiction]. Qed.

Lemma Rltb_false (a b : R) : b <= a -> Rltb a b = false.
Proof. intros H. unfold Rltb. destruct (Rlt_dec a b); [lra | reflexivity]. Qed.

Lemma Rleb_true (a b : R) : a <= b -> Rleb a b = true.
Proof. intros H. unfold Rleb. destruct (Rle_dec a b); [reflexivity | contradiction]. Qed.

Lemma Rleb_false (a b : R) : b < a -> Rleb a b = false.
Proof. intros H. unfold Rleb. destruct (Rle_dec a b); [lra | reflexivity]. Qed.

Lemma Reqb_true (a b : R) : a = b -> Reqb a b = true.
Proof. intros H. unfold Reqb. destruct (Req_dec_T a b); [reflexivity | contradiction]. Qed.

Lemma Reqb_false (a b : R) : a <> b -> Reqb a b = false.
Proof. intros H. unfold Reqb. destruct (Req_dec_T a b); [contradiction | reflexivity]. Qed.

Lemma Rltb_spec (a b : R) : Rltb a b = true <-> a < b.
Proof.
  split; [| apply Rltb_true].
  unfold Rltb. destruct (Rlt_dec a b); [trivial | discriminate].
Qed.

Lemma Rleb_spec (a b : R) : Rleb a b = true <-> a <= b.
Proof.
  split; [| apply Rleb_true].
  unfold Rleb. destruct (Rle_dec a b); [trivial | discriminate].
Qed.

Lemma Reqb_spec (a b : R) : Reqb a b = true <-> a = b.
Proof.
  split; [| apply Reqb_true].
  unfold Reqb. destruct (Req_dec_T a b); [trivial | discriminate].
Qed.

Lemma Rltb_nlt (a b : R) : Rltb a b = false <-> b <= a.
Proof.
  split; [| apply Rltb_false].
  unfold Rltb. destruct (Rlt_dec a b); [discriminate | lra].
Qed.

Lemma Rleb_nle (a b : R) : Rleb a b = false <-> b < a.
Proof.
  split; [| apply Rleb_false].
  unfold Rleb. destruct (Rle_dec a b); [discriminate | lra].
Qed.

Lemma Reqb_neq (a b : R) : Reqb a b = false <-> a <> b.
Proof.
  split; [| apply Reqb_false].
  unfold Reqb. destruct (Req_dec_T a b); [discriminate | trivial].
Qed.

(** Turns every boolean comparison among the hypotheses into the order fact
    it stands for. *)
Ltac reflect_cmp :=
  repeat match goal with
  | H : Rltb _ _ = true |- _ => apply Rltb_spec in H
  | H : Rltb _ _ = false |- _ => apply Rltb_nlt in H
  | H : Rleb _ _ = true |- _ => apply Rleb_spec in H
  | H : Rleb _ _ = false |- _ => apply Rleb_nle in H
  | H : Reqb _ _ = true |- _ => apply Reqb_spec in H
  | H : Reqb _ _ = false |- _ => apply Reqb_neq in H
  end.

(** Decides the comparisons of closed reals that occur in the goal. *)
Ltac eval_cmp :=
  repeat match goal with
  | |- context [Rltb ?a ?b] =>
      first [ rewrite (Rltb_true a b) by lra | rewrite (Rltb_false a b) by lra ]
  | |- context [Rleb ?a ?b] =>
      first [ rewrite (Rleb_true a b) by lra | rewrite (Rleb_false a b) by lra ]
  | |- context [Reqb ?a ?b] =>
      first [ rewrite (Reqb_true a b) by lra | rewrite (Reqb_false a b) by lra ]
  end.


(** ** Angle geometry *)

Lemma atan2_east (y x : R) : 0 < x -> y = 0 -> atan2 y x = 0.
Proof.
  intros Hx ->. unfold atan2. rewrite Rltb_true by exact Hx.
  unfold Rdiv. rewrite Rmult_0_l. apply atan_0.
Qed.

Lemma atan2_west (y x : R) : x < 0 -> y = 0 -> atan2 y x = PI.
Proof.
  intros Hx ->. unfold atan2.
  rewrite Rltb_false by lra. rewrite Rltb_true by exact Hx.
  rewrite Rleb_true by lra.
  unfold Rdiv. rewrite Rmult_0_l, atan_0. lra.
Qed.

Lemma atan2_south (y x : R) : x = 0 -> 0 < y -> atan2 y x = PI / 2.
Proof.
  intros -> Hy. unfold atan2.
  rewrite !(Rltb_false 0 0) by lra. rewrite Rltb_true by exact Hy.
  reflexivity.
Qed.

Lemma atan2_north (y x : R) : x = 0 -> y < 0 -> atan2 y x = - (PI / 2).
Proof.
  intros -> Hy. unfold atan2.
  rewrite !(Rltb_false 0 0) by lra. rewrite (Rltb_false 0 y) by lra.
  rewrite Rltb_true by exact Hy. reflexivity.
Qed.

Lemma atan2_bounds (y x : R) : - PI <= atan2 y x <= PI.
Proof.
  pose proof PI_RGT_0 as Hpi.
  pose proof (atan_bound (y / x)) as Hb.
  unfold atan2.
  destruct (Rltb 0 x) eqn:E1; [lra |].
  destruct (Rltb x 0) eqn:E2.
  - apply Rltb_spec in E2.
    destruct (Rleb 0 y) eqn:E3.
    + apply Rleb_spec in E3.
      assert (y / x <= 0).
      { assert (/ x < 0) by (apply Rinv_lt_0_compat; exact E2).
        unfold Rdiv. nra. }
      assert (atan (y / x) <= 0).
      { destruct (Req_dec_T (y / x) 0) as [-> | Hne].
        - rewrite atan_0. lra.
        - rewrite <- atan_0. left. apply atan_increasing. lra. }
      lra.
    + apply Rleb_nle in E3.
      assert (0 < y / x).
      { replace (y / x) with ((- y) * / (- x)) by (field; lra).
        apply Rmult_lt_0_compat; [lra |]. apply Rinv_0_lt_compat. lra. }
      assert (0 < atan (y / x)).
      { rewrite <- atan_0. apply atan_increasing. assumption. }
      lra.
  - destruct (Rltb 0 y); [lra |]. destruct (Rltb y 0); lra.
Qed.

Lemma degrees_scale (k : R) : degrees (k * PI) = k * 180.
Proof. unfold degrees. field. apply PI_neq0. Qed.

Lemma degrees_bounds (r lo hi : R) :
  lo * PI <= r <= hi * PI -> lo * 180 <= degrees r <= hi * 180.
Proof.
  intros [Hlo Hhi]. pose proof PI_RGT_0 as Hpi.
  rewrite <- (degrees_scale lo), <- (degrees_scale hi).
  unfold degrees, Rdiv.
  assert (0 < / PI) by (apply Rinv_0_lt_compat; exact Hpi).
  split; apply Rmult_le_compat_r; lra.
Qed.

(** Whatever the points, the value lies between 0 and 360. *)
Lemma calculate_angle_bounds (a b c : R * R) :
  0 <= calculate_angle a b c <= 360.
Proof.
  unfold calculate_angle.
  set (p := atan2 (snd c - snd b) (fst c - fst b)).
  set (q := atan2 (snd a - snd b) (fst a - fst b)).
  pose proof (atan2_bounds (snd c - snd b) (fst c - fst b)) as Hp.
  pose proof (atan2_bounds (snd a - snd b) (fst a - fst b)) as Hq.
  fold p in Hp. fold q in Hq.
  assert (Hd : -2 * 180 <= degrees (p - q) <= 2 * 180).
  { apply degrees_bounds. lra. }
  split; [apply Rabs_pos |].
  destruct (Rltb (degrees (p - q)) 180) eqn:E.
  - apply Rabs_le. lra.
  - apply Rltb_nlt in E. apply Rabs_le. lra.
Qed.

(** C3: with [b] at the origin, [a] on the negative x axis and [c] on the
    negative y axis the two rays are perpendicular, yet the polar angles
    differ by -270 degrees, the fold of values from 180 upwards leaves that
    value alone, and [calculate_angle] returns 270: a value outside
    [0, 180]. *)
Theorem calculate_angle_exceeds_180 :
  calculate_angle (-1, 0) (0, 0) (0, -1) = 270 /\
  ~ (0 <= calculate_angle (-1, 0) (0, 0) (0, -1) <= 180).
Proof.
  assert (E : calculate_angle (-1, 0) (0, 0) (0, -1) = 270).
  { unfold calculate_angle. cbn [fst snd].
    rewrite (atan2_north (-1 - 0) (0 - 0)) by lra.
    rewrite (atan2_west (0 - 0) (-1 - 0)) by lra.
    replace (- (PI / 2) - PI) with (- (3 / 2) * PI) by lra.
    rewrite degrees_scale.
    rewrite Rltb_true by lra.
    rewrite Rabs_left by lra. lra. }
  split; [exact E |]. rewrite E. lra.
Qed.

(** ** Side selection *)

(** Splits on every comparison that the goal's conditional tests. *)
Ltac split_cmp :=
  repeat match goal with
  | |- context [Rltb ?a ?b] => destruct (Rltb a b) eqn:?
  | |- context [Rleb ?a ?b] => destruct (Rleb a b) eqn:?
  | |- context [Reqb ?a ?b] => destruct (Reqb a b) eqn:?
  end.

Lemma selects_unique (v : R) (nose Ls Rs Lh Rh : Landmark) (s1 s2 : Side) :
  selects v nose Ls Rs Lh Rh s1 -> selects v nose Ls Rs Lh Rh s2 -> s1 = s2.
Proof.
  unfold selects, dominant.
  destruct s1, s2; cbn [other side_vis side_depth side_dist];
    try reflexivity; intros H1 H2; exfalso;
    repeat match goal with
    | H : _ \/ _ |- _ => destruct H
    | H : _ /\ _ |- _ => destruct H
    end; try discriminate; try lra; tauto.
Qed.

(** C9, amended: on a snapshot that has the nose, both shoulders and both hips,
    [choose_side] returns a side, and it is the one side that the precedence
    rule selects when the visibility test reads "at least 2v": a side whose
    combined shoulder and hip visibility is at least [2v] and strictly above
    the other side's; otherwise the side of the shoulder with strictly
    smaller [z]; otherwise the side whose shoulder is strictly closer to the
    nose, and the right side when the distances are equal. *)
Theorem choose_side_selects (lms : list Landmark) (v : R)
    (nose Ls Rs Lh Rh : Landmark) :
  nth_error lms NOSE = Some nose ->
  nth_error lms LEFT_SHOULDER = Some Ls ->
  nth_error lms RIGHT_SHOULDER = Some Rs ->
  nth_error lms LEFT_HIP = Some Lh ->
  nth_error lms RIGHT_HIP = Some Rh ->
  exists side,
    choose_side lms v = Some side /\
    selects v nose Ls Rs Lh Rh side /\
    (forall side', selects v nose Ls Rs Lh Rh side' -> side' = side).
Proof.
  intros Hn HLs HRs HLh HRh.
  assert (Hpick : exists side,
            choose_side lms v = Some side /\ selects v nose Ls Rs Lh Rh side).
  { unfold choose_side. rewrite HLs, HRs, HLh, HRh, Hn. cbv zeta.
    set (dL := (lm_x nose - lm_x Ls) ^ 2 + (lm_y nose - lm_y Ls) ^ 2).
    set (dR := (lm_x nose - lm_x Rs) ^ 2 + (lm_y nose - lm_y Rs) ^ 2).
    assert (HdL : side_dist nose Ls Rs Left = dL) by reflexivity.
    assert (HdR : side_dist nose Ls Rs Right = dR) by reflexivity.
    clearbody dL dR.
    destruct (Rtotal_order dL dR) as [Hd | [Hd | Hd]];
    split_cmp; cbn [andb]; reflect_cmp;
      (eexists; split; [reflexivity |]);
      try (exfalso; lra);
      unfold selects, dominant; cbn [other]; rewrite HdL, HdR;
      cbn [side_vis side_depth];
      first
        [ left; split; lra
        | right; split; [intros []; lra |]; split; [intros []; lra |];
          first
            [ left; lra
            | right; split; [lra |];
              first [ left; lra | right; split; [lra | reflexivity] ] ] ]. }
  destruct Hpick as (side & Hc & Hs).
  exists side. repeat split; try assumption.
  intros side' Hs'. exact (selects_unique v nose Ls Rs Lh Rh side' side Hs' Hs).
Qed.

Lemma choose_side_selects_witness :
  nth_error sitting_slouched NOSE = Some (at_xy 1 0) /\
  nth_error sitting_slouched LEFT_SHOULDER = Some (at_xy 0 0) /\
  nth_error sitting_slouched LEFT_HIP = Some (at_xy 0 1) /\
  exists side,
    choose_side sitting_slouched VIS_THRESH = Some side /\
    selects VIS_THRESH (at_xy 1 0) (at_xy 0 0) hidden (at_xy 0 1) hidden side /\
    (forall side',
        selects VIS_THRESH (at_xy 1 0) (at_xy 0 0) hidden (at_xy 0 1) hidden
                side' -> side' = side).
Proof.
  repeat split; try reflexivity.
  apply (choose_side_selects sitting_slouched VIS_THRESH
           (at_xy 1 0) (at_xy 0 0) hidden (at_xy 0 1) hidden); reflexivity.
Defined.

(** C9 as worded fails where a side's combined visibility equals [2v]: with
    both left landmarks at visibility 1/2, both right ones at 1/4 and the
    right shoulder nearer, [choose_side] answers left, while under the
    worded rule no side exceeds [2v] and the nearer right shoulder decides. *)
Lemma choose_side_at_threshold :
  let nose := at_xy 0 0 in
  let Ls := mkLandmark 0 0 1 (1 / 2) in
  let Rs := mkLandmark 0 0 0 (1 / 4) in
  let Lh := mkLandmark 0 1 0 (1 / 2) in
  let Rh := mkLandmark 0 1 0 (1 / 4) in
  nth_error borderline_left NOSE = Some nose /\
  nth_error borderline_left LEFT_SHOULDER = Some Ls /\
  nth_error borderline_left RIGHT_SHOULDER = Some Rs /\
  nth_error borderline_left LEFT_HIP = Some Lh /\
  nth_error borderline_left RIGHT_HIP = Some Rh /\
  choose_side borderline_left VIS_THRESH = Some Left /\
  ~ spec_selects VIS_THRESH nose Ls Rs Lh Rh Left /\
  spec_selects VIS_THRESH nose Ls Rs Lh Rh Right.
Proof.
  cbv zeta. repeat split; try reflexivity.
  - unfold choose_side, borderline_left, VIS_THRESH.
    cbn [pose nth_error repeat app LEFT_SHOULDER RIGHT_SHOULDER LEFT_HIP
         RIGHT_HIP visibility lm_z].
    eval_cmp. reflexivity.
  - unfold spec_selects, spec_dominant, VIS_THRESH.
    cbn [other side_vis side_depth side_dist visibility lm_z lm_x lm_y].
    intros [H | (_ & _ & [H | H])]; lra.
  - unfold spec_selects, spec_dominant, VIS_THRESH.
    cbn [other side_vis side_depth side_dist visibility lm_z lm_x lm_y].
    right. repeat split; try (intros []; lra). left. lra.
Qed.

(** ** Event counting *)

Lemma count_app (p : Event -> bool) (a b : list Event) :
  count p (a ++ b) = (count p a + count p b)%nat.
Proof. unfold count. rewrite filter_app, length_app. reflexivity. Qed.

Lemma count_nil (p : Event -> bool) : count p [] = 0%nat.
Proof. reflexivity. Qed.

(** ** What each step of a frame leaves alone *)

Lemma manage_sound_loop_keeps (s : State) (b : bool) :
  let s' := fst (manage_sound_loop s b) in
  bad_posture_count s' = bad_posture_count s /\
  consecutive_bad_posture s' = consecutive_bad_posture s /\
  last_detection_time s' = last_detection_time s /\
  sitting_start_time s' = sitting_start_time s /\
  stretch_prompted s' = stretch_prompted s /\
  prev_is_standing s' = prev_is_standing s /\
  stand_up_time s' = stand_up_time s.
Proof.
  unfold manage_sound_loop.
  destruct b, (ping_active s); cbn; try destruct (ping_thread s); cbn;
    repeat split; reflexivity.
Qed.

(** After [manage_sound_loop] the flag equals the requested value. *)
Lemma manage_sound_loop_active (s : State) (b : bool) :
  ping_active (fst (manage_sound_loop s b)) = b.
Proof.
  unfold manage_sound_loop.
  destruct b, (ping_active s) eqn:E; cbn; try destruct (ping_thread s); cbn;
    congruence.
Qed.

Lemma manage_sound_loop_quiet (s : State) (b : bool) :
  let evs := snd (manage_sound_loop s b) in
  (forall c, count (is_sound c) evs = 0%nat) /\
  count is_paused_text evs = 0%nat /\
  count is_no_detection_text evs = 0%nat.
Proof.
  unfold manage_sound_loop.
  destruct b, (ping_active s); cbn; try destruct (ping_thread s); cbn;
    repeat split; try reflexivity; intros c; destruct c; reflexivity.
Qed.

Lemma stretch_prompt_keeps (b : bool) (s : State) :
  let s' := fst (stretch_prompt b s) in
  bad_posture_count s' = bad_posture_count s /\
  consecutive_bad_posture s' = consecutive_bad_posture s /\
  last_detection_time s' = last_detection_time s /\
  sitting_start_time s' = sitting_start_time s /\
  prev_is_standing s' = prev_is_standing s /\
  stand_up_time s' = stand_up_time s /\
  ping_active s' = ping_active s.
Proof.
  unfold stretch_prompt.
  destruct b, (stretch_prompted s); cbn; repeat split; reflexivity.
Qed.

Lemma stretch_prompt_quiet (b : bool) (s : State) :
  let evs := snd (stretch_prompt b s) in
  (forall c, count (is_sound c) evs = 0%nat) /\
  count is_paused_text evs = 0%nat.
Proof.
  unfold stretch_prompt.
  destruct b, (stretch_prompted s); cbn;
    repeat split; try reflexivity; intros c; destruct c; reflexivity.
Qed.

Lemma exceeded_notice_quiet (b : bool) (s : State) :
  (forall c, count (is_sound c) (exceeded_notice b s) = 0%nat) /\
  count is_paused_text (exceeded_notice b s) = 0%nat.
Proof.
  unfold exceeded_notice.
  destruct b, (ping_active s); cbn;
    repeat split; try reflexivity; intros c; destruct c; reflexivity.
Qed.

Lemma sitting_timer_keeps (now : R) (is_sit is_stand : bool) (s : State) :
  let s' := sitting_timer now is_sit is_stand s in
  bad_posture_count s' = bad_posture_count s /\
  consecutive_bad_posture s' = consecutive_bad_posture s /\
  last_detection_time s' = last_detection_time s /\
  prev_is_standing s' = prev_is_standing s /\
  stand_up_time s' = stand_up_time s /\
  ping_active s' = ping_active s.
Proof.
  unfold sitting_timer.
  destruct is_sit, is_stand, (sitting_start_time s); cbn;
    repeat split; reflexivity.
Qed.

(** The sitting timer after lines 176-179. *)
Lemma sitting_timer_start (now : R) (is_sit is_stand : bool) (s : State) :
  sitting_start_time (sitting_timer now is_sit is_stand s) =
  if is_stand then None
  else match sitting_start_time s with
       | Some t => Some t
       | None => if is_sit then Some now else None
       end.
Proof.
  unfold sitting_timer.
  destruct is_sit, is_stand, (sitting_start_time s) eqn:E; cbn;
    try rewrite E; reflexivity.
Qed.

Lemma stand_up_transition_keeps (now : R) (is_stand : bool) (s : State) :
  let s' := fst (stand_up_transition now is_stand s) in
  consecutive_bad_posture s' = consecutive_bad_posture s /\
  last_detection_time s' = last_detection_time s /\
  sitting_start_time s' = sitting_start_time s /\
  prev_is_standing s' = prev_is_standing s /\
  ping_active s' = ping_active s.
Proof.
  unfold stand_up_transition.
  destruct is_stand, (prev_is_standing s) eqn:E; cbn; rewrite ?E;
    repeat split; reflexivity.
Qed.

Lemma posture_check_keeps (now sit : R) (is_stand : bool) (s : State) :
  let s' := fst (posture_check now sit is_stand s) in
  sitting_start_time s' = sitting_start_time s /\
  prev_is_standing s' = prev_is_standing s /\
  stand_up_time s' = stand_up_time s /\
  ping_active s' = ping_active s.
Proof.
  unfold posture_check.
  destruct (check_paused now s), (bad_angle sit); cbn;
    try (repeat split; reflexivity).
  destruct ((3 <=? consecutive_bad_posture s + 1)%Z
            && Rleb DETECTION_COOLDOWN (now - last_detection_time s));
    cbn; repeat split; reflexivity.
Qed.

(** [process_angles] with the intermediate states named. *)
Lemma process_angles_unfold (now : R) (side : Side) (sit std0 : R)
    (s : State) :
  process_angles now side sit std0 s =
  let is_stand := is_stand_of std0 in
  let is_sit := is_sit_of sit std0 in
  let r2 := stand_up_transition now is_stand
              (sitting_timer now is_sit is_stand s) in
  let r3 := posture_check now sit is_stand (fst r2) in
  let st := stretch_time now is_sit (fst r3) in
  let r4 := stretch_prompt st (fst r3) in
  let ex := (MAX_COUNTER <=? bad_posture_count (fst r4))%Z in
  let r5 := manage_sound_loop (fst r4) (st || ex) in
  (set_prev_is_standing is_stand (fst r5),
   snd r2 ++ snd r3 ++ snd r4 ++ exceeded_notice ex (fst r4) ++ snd r5
   ++ [draw_text (Deg1 side sit); draw_text (Deg2 side (fold_std std0));
       draw_landmarks]).
Proof.
  unfold process_angles. cbv zeta.
  destruct (stand_up_transition now (is_stand_of std0)
              (sitting_timer now (is_sit_of sit std0) (is_stand_of std0) s))
    as [s2 e2].
  cbn [fst snd].
  destruct (posture_check now sit (is_stand_of std0) s2) as [s3 e3].
  cbn [fst snd].
  destruct (stretch_prompt (stretch_time now (is_sit_of sit std0) s3) s3)
    as [s4 e4].
  cbn [fst snd].
  destruct (manage_sound_loop s4
              (stretch_time now (is_sit_of sit std0) s3
               || (MAX_COUNTER <=? bad_posture_count s4)%Z)) as [s5 e5].
  reflexivity.
Qed.

(** ** What each step of a frame does *)

Lemma stand_up_transition_effect (now : R) (is_stand : bool) (s : State) :
  let r := stand_up_transition now is_stand s in
  let edge := is_stand && negb (prev_is_standing s) in
  stand_up_time (fst r) = (if edge then Some now else stand_up_time s) /\
  bad_posture_count (fst r) = (if edge then 0%Z else bad_posture_count s) /\
  count (is_sound reset_wav) (snd r) = (if edge then 1%nat else 0%nat) /\
  count (is_sound siren_short_wav) (snd r) = 0%nat /\
  count is_paused_text (snd r) = 0%nat.
Proof.
  unfold stand_up_transition.
  destruct (is_stand && negb (prev_is_standing s)); cbn;
    repeat split; reflexivity.
Qed.

Lemma posture_check_effect (now sit : R) (is_stand : bool) (s : State) :
  let r := posture_check now sit is_stand s in
  let sup := check_paused now s in
  let c := (consecutive_bad_posture s + 1)%Z in
  let fires :=
    negb sup && bad_angle sit && (3 <=? c)%Z
    && Rleb DETECTION_COOLDOWN (now - last_detection_time s) in
  bad_posture_count (fst r)
    = (bad_posture_count s + (if fires then 1 else 0))%Z /\
  last_detection_time (fst r)
    = (if fires then now else last_detection_time s) /\
  consecutive_bad_posture (fst r)
    = (if sup then consecutive_bad_posture s
       else if bad_angle sit then (if fires then 0%Z else c) else 0%Z) /\
  count (is_sound siren_short_wav) (snd r) = (if fires then 1%nat else 0%nat) /\
  count (is_sound reset_wav) (snd r) = 0%nat /\
  count is_paused_text (snd r) = (if sup then 1%nat else 0%nat).
Proof.
  unfold posture_check. cbv zeta.
  destruct (check_paused now s); cbn [negb andb fst snd].
  { cbn. repeat split; try reflexivity. lia. }
  destruct (bad_angle sit); cbn [negb andb fst snd].
  2: { destruct is_stand; cbn; repeat split; try reflexivity; lia. }
  cbn [consecutive_bad_posture set_consecutive_bad_posture
       last_detection_time].
  destruct ((3 <=? consecutive_bad_posture s + 1)%Z
            && Rleb DETECTION_COOLDOWN (now - last_detection_time s));
    cbn; repeat split; try reflexivity; lia.
Qed.

Lemma check_paused_ext (now : R) (a b : State) :
  stand_up_time a = stand_up_time b -> check_paused now a = check_paused now b.
Proof. intros H. unfold check_paused. rewrite H. reflexivity. Qed.

Lemma stretch_time_ext (now : R) (is_sit : bool) (a b : State) :
  sitting_start_time a = sitting_start_time b ->
  stretch_time now is_sit a = stretch_time now is_sit b.
Proof. intros H. unfold stretch_time. rewrite H. reflexivity. Qed.

(** The whole effect of a frame with landmarks on the session state and on
    the cues, in terms of the state the frame starts in. *)
Lemma process_angles_effect (now : R) (side : Side) (sit std0 : R)
    (s : State) :
  let r := process_angles now side sit std0 s in
  let edge := stand_up_edge std0 s in
  let sup := suppressed now std0 s in
  let fires := detection_fires now sit std0 s in
  prev_is_standing (fst r) = is_stand_of std0 /\
  stand_up_time (fst r) = (if edge then Some now else stand_up_time s) /\
  sitting_start_time (fst r)
    = (if is_stand_of std0 then None
       else match sitting_start_time s with
            | Some t => Some t
            | None => if is_sit_of sit std0 then Some now else None
            end) /\
  bad_posture_count (fst r)
    = ((if edge then 0 else bad_posture_count s)
       + (if fires then 1 else 0))%Z /\
  last_detection_time (fst r)
    = (if fires then now else last_detection_time s) /\
  consecutive_bad_posture (fst r)
    = (if sup then consecutive_bad_posture s
       else if bad_angle sit
            then (if fires then 0 else consecutive_bad_posture s + 1)%Z
            else 0%Z) /\
  count (is_sound reset_wav) (snd r) = (if edge then 1%nat else 0%nat) /\
  count (is_sound siren_short_wav) (snd r)
    = (if fires then 1%nat else 0%nat) /\
  count is_paused_text (snd r) = (if sup then 1%nat else 0%nat) /\
  ping_active (fst r)
    = (stretch_time now (is_sit_of sit std0) (fst r)
       || (MAX_COUNTER <=? bad_posture_count (fst r))%Z).
Proof.
  rewrite process_angles_unfold. cbv zeta.
  unfold stand_up_edge, detection_fires, suppressed.
  set (is_stand := is_stand_of std0). set (is_sit := is_sit_of sit std0).
  set (s1 := sitting_timer now is_sit is_stand s).
  set (r2 := stand_up_transition now is_stand s1).
  set (r3 := posture_check now sit is_stand (fst r2)).
  set (st := stretch_time now is_sit (fst r3)).
  set (r4 := stretch_prompt st (fst r3)).
  set (ex := (MAX_COUNTER <=? bad_posture_count (fst r4))%Z).
  set (r5 := manage_sound_loop (fst r4) (st || ex)).
  destruct (sitting_timer_keeps now is_sit is_stand s)
    as (K1b & K1c & K1l & K1p & K1u & _).
  pose proof (sitting_timer_start now is_sit is_stand s) as K1s.
  fold s1 in K1b, K1c, K1l, K1p, K1u, K1s.
  destruct (stand_up_transition_keeps now is_stand s1)
    as (K2c & K2l & K2s & K2p & _).
  destruct (stand_up_transition_effect now is_stand s1)
    as (E2u & E2b & E2r & E2q & E2t).
  fold r2 in K2c, K2l, K2s, K2p, E2u, E2b, E2r, E2q, E2t.
  destruct (posture_check_keeps now sit is_stand (fst r2))
    as (K3s & K3p & K3u & _).
  destruct (posture_check_effect now sit is_stand (fst r2))
    as (E3b & E3l & E3c & E3q & E3r & E3t).
  fold r3 in K3s, K3p, K3u, E3b, E3l, E3c, E3q, E3r, E3t.
  destruct (stretch_prompt_keeps st (fst r3))
    as (K4b & K4c & K4l & K4s & K4p & K4u & _).
  destruct (stretch_prompt_quiet st (fst r3)) as (Q4 & Q4t).
  fold r4 in K4b, K4c, K4l, K4s, K4p, K4u, Q4, Q4t.
  destruct (exceeded_notice_quiet ex (fst r4)) as (Q5 & Q5t).
  destruct (manage_sound_loop_keeps (fst r4) (st || ex))
    as (K6b & K6c & K6l & K6s & _ & K6p & K6u).
  destruct (manage_sound_loop_quiet (fst r4) (st || ex)) as (Q6 & Q6t & _).
  pose proof (manage_sound_loop_active (fst r4) (st || ex)) as A6.
  fold r5 in K6b, K6c, K6l, K6s, K6p, K6u, Q6, Q6t, A6.
  assert (Hsup : check_paused now (fst r2)
                 = check_paused now (fst (stand_up_transition now is_stand s))).
  { apply check_paused_ext. rewrite E2u.
    destruct (stand_up_transition_effect now is_stand s) as (-> & _).
    rewrite K1p, K1u. reflexivity. }
  rewrite Hsup in E3b, E3l, E3c, E3q, E3t.
  rewrite K2c, K1c, K2l, K1l in E3b, E3l, E3c, E3q.
  rewrite K1p in E2u, E2b, E2r. rewrite K1u in E2u. rewrite K1b in E2b.
  cbn [fst snd prev_is_standing stand_up_time sitting_start_time
       bad_posture_count last_detection_time consecutive_bad_posture
       ping_active set_prev_is_standing].
  rewrite !count_app, E2r, E2q, E2t, E3q, E3r, E3t, !Q4, Q4t, !Q5, Q5t,
    !Q6, Q6t.
  rewrite K6u, K4u, K3u, E2u.
  rewrite K6s, K4s, K3s, K2s, K1s.
  rewrite K6b, K4b, E3b, E2b.
  rewrite K6l, K4l, E3l. rewrite K6c, K4c, E3c.
  rewrite A6.
  repeat split; try reflexivity.
  - destruct (is_stand && negb (prev_is_standing s)); reflexivity.
  - cbn. destruct (_ && _ && _ && _); reflexivity.
  - cbn. destruct (check_paused _ _); reflexivity.
  - f_equal.
    + apply stretch_time_ext. cbn [sitting_start_time set_prev_is_standing].
      rewrite K6s, K4s. reflexivity.
    + unfold ex. rewrite K4b, E3b, E2b. reflexivity.
Qed.

(** ** The sample poses *)

Lemma calculate_angle_polar (a b c : R * R) (p q : R) :
  atan2 (snd c - snd b) (fst c - fst b) = p * PI ->
  atan2 (snd a - snd b) (fst a - fst b) = q * PI ->
  calculate_angle a b c
  = Rabs (if Rltb ((p - q) * 180) 180 then (p - q) * 180
          else 360 - (p - q) * 180).
Proof.
  intros Hc Ha. unfold calculate_angle. rewrite Hc, Ha.
  replace (p * PI - q * PI) with ((p - q) * PI) by ring.
  rewrite degrees_scale. reflexivity.
Qed.

Lemma min3_visible (a b c v : R) :
  v <= a -> v <= b -> v <= c -> Rltb (min3 a b c) v = false.
Proof.
  intros Ha Hb Hc. apply Rltb_false. unfold min3.
  apply Rmin_glb; [apply Rmin_glb |]; assumption.
Qed.

Lemma min3_hidden (a b c v : R) :
  a < v \/ b < v \/ c < v -> Rltb (min3 a b c) v = true.
Proof.
  intros H. apply Rltb_true. unfold min3.
  pose proof (Rmin_l (Rmin a b) c). pose proof (Rmin_r (Rmin a b) c).
  pose proof (Rmin_l a b). pose proof (Rmin_r a b).
  destruct H as [H | [H | H]]; lra.
Qed.

(** Head forward by a right angle: 90 degrees at the shoulder. *)
Lemma angle_head_forward : calculate_angle (1, 0) (0, 0) (0, 1) = 90.
Proof.
  rewrite (calculate_angle_polar _ _ _ (1 / 2) 0); cbn [fst snd].
  - eval_cmp. rewrite Rabs_right; lra.
  - rewrite atan2_south; lra.
  - rewrite atan2_east; lra.
Qed.

(** Head straight above the shoulder: 180 degrees at the shoulder. *)
Lemma angle_head_upright : calculate_angle (0, -1) (0, 0) (0, 1) = 180.
Proof.
  rewrite (calculate_angle_polar _ _ _ (1 / 2) (- (1 / 2))); cbn [fst snd].
  - eval_cmp. rewrite Rabs_right; lra.
  - rewrite atan2_south; lra.
  - rewrite atan2_north; lra.
Qed.

(** Knee straight below the hip: 180 degrees at the hip. *)
Lemma angle_leg_straight : calculate_angle (0, 2) (0, 1) (0, 0) = 180.
Proof.
  rewrite (calculate_angle_polar _ _ _ (- (1 / 2)) (1 / 2)); cbn [fst snd].
  - eval_cmp. rewrite Rabs_left; lra.
  - rewrite atan2_north; lra.
  - rewrite atan2_south; lra.
Qed.

(** Thigh horizontal: 90 degrees at the hip. *)
Lemma angle_leg_bent : calculate_angle (1, 1) (0, 1) (0, 0) = 90.
Proof.
  rewrite (calculate_angle_polar _ _ _ (- (1 / 2)) 0); cbn [fst snd].
  - eval_cmp. rewrite Rabs_left; lra.
  - rewrite atan2_north; lra.
  - rewrite atan2_east; lra.
Qed.

(** Reduces a look-up in one of the sample poses. *)
Ltac eval_pose :=
  unfold choose_side, sit_angle, stand_angle, get_angle,
    standing_slouched, sitting_slouched, sitting_upright, torso_only,
    at_xy, hidden, VIS_THRESH;
  cbn [pose nth_error repeat app shoulder hip knee NOSE LEFT_SHOULDER
       RIGHT_SHOULDER LEFT_HIP RIGHT_HIP LEFT_KNEE RIGHT_KNEE
       visibility lm_x lm_y lm_z].

Lemma standing_slouched_measures :
  choose_side standing_slouched VIS_THRESH = Some Left /\
  sit_angle Left standing_slouched = 90 /\
  stand_angle Left standing_slouched = 180.
Proof.
  split; [| split].
  - eval_pose. eval_cmp. reflexivity.
  - eval_pose. rewrite min3_visible by lra. apply angle_head_forward.
  - eval_pose. rewrite min3_visible by lra. apply angle_leg_straight.
Qed.

Lemma sitting_slouched_measures :
  choose_side sitting_slouched VIS_THRESH = Some Left /\
  sit_angle Left sitting_slouched = 90 /\
  stand_angle Left sitting_slouched = 90.
Proof.
  split; [| split].
  - eval_pose. eval_cmp. reflexivity.
  - eval_pose. rewrite min3_visible by lra. apply angle_head_forward.
  - eval_pose. rewrite min3_visible by lra. apply angle_leg_bent.
Qed.

Lemma sitting_upright_measures :
  choose_side sitting_upright VIS_THRESH = Some Left /\
  sit_angle Left sitting_upright = 180 /\
  stand_angle Left sitting_upright = 90.
Proof.
  split; [| split].
  - eval_pose. eval_cmp. reflexivity.
  - eval_pose. rewrite min3_visible by lra. apply angle_head_upright.
  - eval_pose. rewrite min3_visible by lra. apply angle_leg_bent.
Qed.

Lemma torso_only_measures :
  choose_side torso_only VIS_THRESH = Some Left /\
  sit_angle Left torso_only = 0 /\
  stand_angle Left torso_only = 0.
Proof.
  split; [| split].
  - eval_pose. eval_cmp. reflexivity.
  - eval_pose. rewrite min3_hidden by (left; lra). reflexivity.
  - eval_pose. rewrite min3_hidden by (left; lra). reflexivity.
Qed.

Lemma standing_slouched_frame (now : R) (s : State) :
  process_landmarks now standing_slouched s
  = Some (process_angles now Left 90 180 s).
Proof.
  destruct standing_slouched_measures as (Hside & Hsit & Hstd).
  unfold process_landmarks. rewrite Hside, Hsit, Hstd. reflexivity.
Qed.

Lemma sitting_slouched_frame (now : R) (s : State) :
  process_landmarks now sitting_slouched s
  = Some (process_angles now Left 90 90 s).
Proof.
  destruct sitting_slouched_measures as (Hside & Hsit & Hstd).
  unfold process_landmarks. rewrite Hside, Hsit, Hstd. reflexivity.
Qed.

Lemma sitting_upright_frame (now : R) (s : State) :
  process_landmarks now sitting_upright s
  = Some (process_angles now Left 180 90 s).
Proof.
  destruct sitting_upright_measures as (Hside & Hsit & Hstd).
  unfold process_landmarks. rewrite Hside, Hsit, Hstd. reflexivity.
Qed.

Lemma torso_only_frame (now : R) (s : State) :
  process_landmarks now torso_only s
  = Some (process_angles now Left 0 0 s).
Proof.
  destruct torso_only_measures as (Hside & Hsit & Hstd).
  unfold process_landmarks. rewrite Hside, Hsit, Hstd. reflexivity.
Qed.

(** Evaluates a frame on closed angles, times and state. *)
Ltac eval_frame :=
  unfold process_angles, is_sit_of, is_stand_of, fold_std, sitting_timer,
    stand_up_transition, posture_check, check_paused, truthy, bad_angle,
    stretch_time, stretch_prompt, exceeded_notice, manage_sound_loop,
    handle_no_detection,
    STAND_THRESHOLD, POSTURE_THRESHOLD, DETECTION_COOLDOWN, SIT_LIMIT_SEC,
    MAX_COUNTER;
  repeat (cbv beta iota zeta delta
            [set_bad_posture_count set_consecutive_bad_posture
             set_last_detection_time set_sitting_start_time
             set_stretch_prompted set_prev_is_standing set_stand_up_time
             set_ping_thread set_ping_active
             bad_posture_count consecutive_bad_posture last_detection_time
             sitting_start_time stretch_prompted prev_is_standing
             stand_up_time ping_thread ping_active];
          cbn -[run process_landmarks]; eval_cmp).

(** ** Suppression and the stand-up edge *)

Lemma check_paused_some (now t : R) (s : State) :
  stand_up_time s = Some t -> t <> 0 ->
  check_paused now s = Rltb (now - t) 10.
Proof.
  intros H Ht. unfold check_paused, truthy. rewrite H.
  rewrite Reqb_false by exact Ht. reflexivity.
Qed.

Lemma check_paused_none (now : R) (s : State) :
  stand_up_time s = None -> check_paused now s = false.
Proof. intros H. unfold check_paused, truthy. rewrite H. reflexivity. Qed.

(** With a positive clock the frame of a stand-up edge is itself
    suppressed; on any other frame the stored stand-up time decides. *)
Lemma suppressed_spec (now std0 : R) (s : State) :
  0 < now ->
  suppressed now std0 s
  = if stand_up_edge std0 s then true else check_paused now s.
Proof.
  intros Hnow. unfold suppressed, stand_up_edge, stand_up_transition.
  destruct (is_stand_of std0 && negb (prev_is_standing s)); cbn [fst].
  - rewrite (check_paused_some now now) by (cbn; trivial || lra).
    apply Rltb_true. lra.
  - reflexivity.
Qed.

Lemma unsuppressed_no_edge (now std0 : R) (s : State) :
  0 < now -> suppressed now std0 s = false -> stand_up_edge std0 s = false.
Proof.
  intros Hnow H. rewrite suppressed_spec in H by exact Hnow.
  destruct (stand_up_edge std0 s); [discriminate | reflexivity].
Qed.

Lemma detection_fires_spec (now sit std0 : R) (s : State) :
  detection_fires now sit std0 s = true <->
  suppressed now std0 s = false /\ sit < POSTURE_THRESHOLD /\ sit <> 0 /\
  (3 <= consecutive_bad_posture s + 1)%Z /\
  DETECTION_COOLDOWN <= now - last_detection_time s.
Proof.
  unfold detection_fires, bad_angle.
  rewrite !andb_true_iff, !negb_true_iff, Rltb_spec, Rleb_spec, Z.leb_le.
  rewrite Reqb_neq. tauto.
Qed.

Lemma bad_angle_spec (sit : R) :
  bad_angle sit = true <-> sit < POSTURE_THRESHOLD /\ sit <> 0.
Proof.
  unfold bad_angle. rewrite andb_true_iff, negb_true_iff, Rltb_spec, Reqb_neq.
  tauto.
Qed.

Lemma process_landmarks_inv (now : R) (lms : list Landmark) (s s' : State)
    (evs : list Event) :
  process_landmarks now lms s = Some (s', evs) ->
  exists side,
    choose_side lms VIS_THRESH = Some side /\
    process_angles now side (sit_angle side lms) (stand_angle side lms) s
    = (s', evs).
Proof.
  unfold process_landmarks.
  destruct (choose_side lms VIS_THRESH) as [side |]; [| discriminate].
  intros H. injection H as H. exists side. split; [reflexivity | exact H].
Qed.

Lemma process_landmarks_side (now : R) (lms : list Landmark) (side : Side)
    (s s' : State) (evs : list Event) :
  choose_side lms VIS_THRESH = Some side ->
  process_landmarks now lms s = Some (s', evs) ->
  s' = fst (process_angles now side (sit_angle side lms)
                           (stand_angle side lms) s) /\
  evs = snd (process_angles now side (sit_angle side lms)
                            (stand_angle side lms) s).
Proof.
  intros Hside H. unfold process_landmarks in H. rewrite Hside in H.
  injection H as H. rewrite H. split; reflexivity.
Qed.

(** ** The no-detection frame *)

Lemma handle_no_detection_effect (s : State) :
  let r := handle_no_detection s in
  sitting_start_time (fst r) = None /\
  stretch_prompted (fst r) = false /\
  consecutive_bad_posture (fst r) = 0%Z /\
  prev_is_standing (fst r) = false /\
  ping_active (fst r) = false /\
  bad_posture_count (fst r) = bad_posture_count s /\
  stand_up_time (fst r) = stand_up_time s /\
  last_detection_time (fst r) = last_detection_time s /\
  count is_no_detection_text (snd r) = 1%nat /\
  count is_thread_start (snd r) = 0%nat.
Proof.
  unfold handle_no_detection, manage_sound_loop. cbn.
  destruct (ping_active s) eqn:E; cbn; [destruct (ping_thread s); cbn |];
    rewrite ?E; repeat split; reflexivity.
Qed.

(** ** Reachable states *)

Lemma initial_timestamps_ok : timestamps_ok 0 initial_state.
Proof.
  unfold timestamps_ok, initial_state. cbn.
  repeat split; try discriminate; lia.
Qed.

Lemma process_angles_timestamps_ok (t now : R) (side : Side) (sit std0 : R)
    (s : State) :
  timestamps_ok t s -> t <= now -> 0 < now ->
  timestamps_ok now (fst (process_angles now side sit std0 s)).
Proof.
  intros (Hu & Hs & Hb & Hl) Ht Hnow.
  destruct (process_angles_effect now side sit std0 s)
    as (_ & Eu & Es & Eb & El & _).
  unfold timestamps_ok. rewrite Eu, Es, Eb, El.
  assert (Hfire : detection_fires now sit std0 s = true ->
                  stand_up_edge std0 s = false /\
                  forall u, stand_up_time s = Some u -> 10 <= now - u).
  { intros Hf. apply detection_fires_spec in Hf. destruct Hf as (Hsup & _).
    pose proof (unsuppressed_no_edge now std0 s Hnow Hsup) as He.
    split; [exact He |]. intros u Hsu.
    rewrite suppressed_spec, He in Hsup by exact Hnow.
    destruct (Hu u Hsu) as [Hpos _].
    rewrite (check_paused_some now u) in Hsup by (trivial || lra).
    apply Rltb_nlt in Hsup. exact Hsup. }
  split; [| split; [| split]].
  - intros u H. destruct (stand_up_edge std0 s);
      [injection H as <-; lra | destruct (Hu u H); lra].
  - intros u H. destruct (is_stand_of std0); [discriminate |].
    destruct (sitting_start_time s) as [w |] eqn:E.
    + injection H as <-. destruct (Hs w eq_refl). lra.
    + destruct (is_sit_of sit std0); [injection H as <-; lra | discriminate].
  - destruct (stand_up_edge std0 s), (detection_fires now sit std0 s); lia.
  - intros Hpos. split.
    + destruct (detection_fires now sit std0 s) eqn:Ef; [lra |].
      destruct (stand_up_edge std0 s); [lia |].
      destruct Hl as [Hl _]; [lia | lra].
    + intros u Hsu.
      destruct (detection_fires now sit std0 s) eqn:Ef.
      * destruct (Hfire eq_refl) as [He Hten]. rewrite He in Hsu.
        apply Hten. exact Hsu.
      * destruct (stand_up_edge std0 s); [lia |].
        destruct Hl as [_ Hl]; [lia |]. apply Hl. exact Hsu.
Qed.

Lemma handle_no_detection_timestamps_ok (t now : R) (s : State) :
  timestamps_ok t s -> t <= now ->
  timestamps_ok now (fst (handle_no_detection s)).
Proof.
  intros (Hu & Hs & Hb & Hl) Ht.
  destruct (handle_no_detection_effect s)
    as (Es & _ & _ & _ & _ & Eb & Eu & El & _).
  unfold timestamps_ok. rewrite Es, Eb, Eu, El.
  split; [| split; [| split]].
  - intros u H. destruct (Hu u H); lra.
  - discriminate.
  - exact Hb.
  - intros Hpos. destruct (Hl Hpos) as [H1 H2]. split; [lra | exact H2].
Qed.

Lemma reachable_timestamps_ok (t : R) (s : State) :
  reachable t s -> timestamps_ok t s.
Proof.
  induction 1 as [| t now f s s1 evs Hr IH Ht Hnow Hf].
  - exact initial_timestamps_ok.
  - destruct f as [lms |]; cbn [process_frame] in Hf.
    + apply process_landmarks_inv in Hf. destruct Hf as (side & _ & Hf).
      replace s1
        with (fst (process_angles now side (sit_angle side lms)
                                  (stand_angle side lms) s))
        by (rewrite Hf; reflexivity).
      exact (process_angles_timestamps_ok t now side _ _ s IH Ht Hnow).
    + injection Hf as Hf.
      replace s1 with (fst (handle_no_detection s))
        by (rewrite Hf; reflexivity).
      exact (handle_no_detection_timestamps_ok t now s IH Ht).
Qed.

(** ** The debounced slouch detection *)

(** A frame that is not suppressed and shows a slouching angle. *)
Lemma unsuppressed_bad_frame (now : R) (side : Side) (sit std0 : R)
    (s : State) :
  0 < now ->
  suppressed now std0 s = false ->
  sit <> 0 -> sit < POSTURE_THRESHOLD ->
  let r := process_angles now side sit std0 s in
  count is_paused_text (snd r) = 0%nat /\
  ((3 <= consecutive_bad_posture s + 1)%Z /\
   DETECTION_COOLDOWN <= now - last_detection_time s ->
   bad_posture_count (fst r) = (bad_posture_count s + 1)%Z /\
   last_detection_time (fst r) = now /\
   consecutive_bad_posture (fst r) = 0%Z /\
   count (is_sound siren_short_wav) (snd r) = 1%nat) /\
  (~ ((3 <= consecutive_bad_posture s + 1)%Z /\
      DETECTION_COOLDOWN <= now - last_detection_time s) ->
   bad_posture_count (fst r) = bad_posture_count s /\
   last_detection_time (fst r) = last_detection_time s /\
   consecutive_bad_posture (fst r) = (consecutive_bad_posture s + 1)%Z /\
   count (is_sound siren_short_wav) (snd r) = 0%nat).
Proof.
  intros Hnow Hsup Hne Hlt. cbv zeta.
  destruct (process_angles_effect now side sit std0 s)
    as (_ & _ & _ & Eb & El & Ec & _ & Eq & Et & _).
  rewrite Eb, El, Ec, Eq, Et.
  rewrite (unsuppressed_no_edge now std0 s Hnow Hsup), Hsup.
  assert (Hbad : bad_angle sit = true) by (apply bad_angle_spec; tauto).
  rewrite Hbad.
  split; [reflexivity |]. split.
  - intros [Hc Ht].
    assert (Hf : detection_fires now sit std0 s = true)
      by (apply detection_fires_spec; tauto).
    rewrite Hf. repeat split; lia.
  - intros Hn.
    assert (Hf : detection_fires now sit std0 s = false).
    { destruct (detection_fires now sit std0 s) eqn:E; [| reflexivity].
      apply detection_fires_spec in E. tauto. }
    rewrite Hf. repeat split; lia.
Qed.

(** C1: on a frame with landmarks that is not suppressed and whose sit angle
    is neither 0 nor at least 130, [consecutive_bad_posture] is incremented;
    exactly when the incremented count is at least 3 and at least 5 seconds
    have passed since [last_detection_time], [bad_posture_count] grows by
    one, [last_detection_time] becomes [now], [consecutive_bad_posture]
    returns to 0 and the short siren is played once; otherwise the count
    and the detection time stay and no siren is played. *)
Theorem debounced_detection (now : R) (lms : list Landmark) (side : Side)
    (s s' : State) (evs : list Event) :
  0 < now ->
  choose_side lms VIS_THRESH = Some side ->
  process_landmarks now lms s = Some (s', evs) ->
  let sit := sit_angle side lms in
  let std := stand_angle side lms in
  suppressed now std s = false ->
  sit <> 0 -> sit < 130 ->
  ((3 <= consecutive_bad_posture s + 1)%Z /\
   5 <= now - last_detection_time s ->
   bad_posture_count s' = (bad_posture_count s + 1)%Z /\
   last_detection_time s' = now /\
   consecutive_bad_posture s' = 0%Z /\
   count (is_sound siren_short_wav) evs = 1%nat) /\
  (~ ((3 <= consecutive_bad_posture s + 1)%Z /\
      5 <= now - last_detection_time s) ->
   bad_posture_count s' = bad_posture_count s /\
   last_detection_time s' = last_detection_time s /\
   consecutive_bad_posture s' = (consecutive_bad_posture s + 1)%Z /\
   count (is_sound siren_short_wav) evs = 0%nat).
Proof.
  intros Hnow Hside Hp sit std Hsup Hne Hlt.
  destruct (process_landmarks_side now lms side s s' evs Hside Hp) as [-> ->].
  destruct (unsuppressed_bad_frame now side sit std s Hnow Hsup Hne Hlt)
    as (_ & Hfire & Hquiet).
  split; [exact Hfire | exact Hquiet].
Qed.

Lemma debounced_detection_witness :
  let s0 := mkState 0 2 0 (Some 100) false false None None false in
  let r := process_angles 102 Left 90 90 s0 in
  bad_posture_count (fst r) = 1%Z /\
  last_detection_time (fst r) = 102 /\
  consecutive_bad_posture (fst r) = 0%Z /\
  count (is_sound siren_short_wav) (snd r) = 1%nat.
Proof.
  cbv zeta.
  destruct sitting_slouched_measures as (Hside & Hsit & Hstd).
  refine (proj1 (debounced_detection 102 sitting_slouched Left
                   (mkState 0 2 0 (Some 100) false false None None false)
                   _ _ _ Hside _ _ _ _) _).
  - lra.
  - rewrite sitting_slouched_frame. rewrite <- surjective_pairing.
    reflexivity.
  - rewrite Hstd. unfold suppressed. eval_frame. reflexivity.
  - rewrite Hsit. lra.
  - rewrite Hsit. lra.
  - cbn. split; [lia | lra].
Defined.

(** C4, amended: on a frame with landmarks that is not suppressed,
    [consecutive_bad_posture] returns to 0 whenever the sit angle is 0 or at
    least 130 and whenever a debounced detection fires, and it grows by one
    on every other frame; the test looks at the sit angle alone, so a frame
    classified as standing leaves the count at 0 only when its sit angle is
    0 or at least 130. *)
Theorem consecutive_count_reset (now : R) (lms : list Landmark) (side : Side)
    (s s' : State) (evs : list Event) :
  choose_side lms VIS_THRESH = Some side ->
  process_landmarks now lms s = Some (s', evs) ->
  let sit := sit_angle side lms in
  let std := stand_angle side lms in
  suppressed now std s = false ->
  (sit = 0 \/ 130 <= sit -> consecutive_bad_posture s' = 0%Z) /\
  (sit <> 0 -> sit < 130 ->
   (3 <= consecutive_bad_posture s + 1)%Z ->
   5 <= now - last_detection_time s ->
   consecutive_bad_posture s' = 0%Z) /\
  (sit <> 0 -> sit < 130 ->
   ~ ((3 <= consecutive_bad_posture s + 1)%Z /\
      5 <= now - last_detection_time s) ->
   consecutive_bad_posture s' = (consecutive_bad_posture s + 1)%Z).
Proof.
  intros Hside Hp sit std Hsup.
  destruct (process_landmarks_side now lms side s s' evs Hside Hp) as [-> _].
  fold sit std.
  destruct (process_angles_effect now side sit std s)
    as (_ & _ & _ & _ & _ & Ec & _).
  rewrite Ec, Hsup. clear Ec.
  split; [| split].
  - intros Hgood.
    assert (Hb : bad_angle sit = false).
    { destruct (bad_angle sit) eqn:E; [| reflexivity].
      apply bad_angle_spec in E. unfold POSTURE_THRESHOLD in E. lra. }
    rewrite Hb. reflexivity.
  - intros Hne Hlt Hc Ht.
    assert (Hb : bad_angle sit = true) by (apply bad_angle_spec; tauto).
    assert (Hf : detection_fires now sit std s = true)
      by (apply detection_fires_spec; tauto).
    rewrite Hb, Hf. reflexivity.
  - intros Hne Hlt Hn.
    assert (Hb : bad_angle sit = true) by (apply bad_angle_spec; tauto).
    assert (Hf : detection_fires now sit std s = false).
    { destruct (detection_fires now sit std s) eqn:E; [| reflexivity].
      apply detection_fires_spec in E. tauto. }
    rewrite Hb, Hf. reflexivity.
Qed.

Lemma consecutive_count_reset_witness :
  let s0 := mkState 1 2 50 (Some 40) false false None None false in
  consecutive_bad_posture (fst (process_angles 102 Left 180 90 s0)) = 0%Z.
Proof.
  cbv zeta.
  destruct sitting_upright_measures as (Hside & Hsit & Hstd).
  refine (proj1 (consecutive_count_reset 102 sitting_upright Left
                   (mkState 1 2 50 (Some 40) false false None None false)
                   _ _ Hside _ _) _).
  - rewrite sitting_upright_frame. rewrite <- surjective_pairing.
    reflexivity.
  - rewrite Hstd. unfold suppressed. eval_frame. reflexivity.
  - rewrite Hsit. right. lra.
Defined.

(** C4 as worded fails on a person who keeps standing with the head pushed
    forward: the first standing frame, at time 100, is the stand-up edge;
    the second, at time 111, is past the ten-second pause, is classified as
    standing, and raises [consecutive_bad_posture] from 0 to 1. *)
Lemma standing_frame_raises_consecutive_count :
  exists s s' evs evs',
    process_frame 100 (Some standing_slouched) initial_state = Some (s, evs) /\
    process_landmarks 111 standing_slouched s = Some (s', evs') /\
    choose_side standing_slouched VIS_THRESH = Some Left /\
    is_stand_of (stand_angle Left standing_slouched) = true /\
    suppressed 111 (stand_angle Left standing_slouched) s = false /\
    consecutive_bad_posture s = 0%Z /\
    consecutive_bad_posture s' = 1%Z.
Proof.
  destruct standing_slouched_measures as (Hside & Hsit & Hstd).
  exists (fst (process_angles 100 Left 90 180 initial_state)),
         (fst (process_angles 111 Left 90 180
                 (fst (process_angles 100 Left 90 180 initial_state)))),
         (snd (process_angles 100 Left 90 180 initial_state)),
         (snd (process_angles 111 Left 90 180
                 (fst (process_angles 100 Left 90 180 initial_state)))).
  rewrite Hstd.
  assert (E : fst (process_angles 100 Left 90 180 initial_state)
              = mkState 0 0 0 None false true (Some 100) None false).
  { unfold initial_state. eval_frame. reflexivity. }
  rewrite E.
  split; [| split; [| split; [| split; [| split; [| split]]]]].
  - cbn [process_frame]. rewrite standing_slouched_frame.
    rewrite (surjective_pairing (process_angles 100 Left 90 180 initial_state))
      at 1.
    rewrite E. reflexivity.
  - rewrite standing_slouched_frame. rewrite <- surjective_pairing.
    reflexivity.
  - exact Hside.
  - unfold is_stand_of, fold_std, STAND_THRESHOLD. eval_cmp. reflexivity.
  - unfold suppressed. eval_frame. reflexivity.
  - reflexivity.
  - eval_frame. reflexivity.
Qed.

(** ** The stand-up edge *)

(** C6: on a frame with landmarks that is classified as standing while
    [prev_is_standing] is false, [stand_up_time] becomes [now],
    [bad_posture_count] is 0 after the frame and the stand-up cue is played
    exactly once; on a frame where [prev_is_standing] is already true, and
    likewise on a frame that is not classified as standing, the stand-up
    time stays, the cue is not played and the count is not reset, so that
    the cue is played in a frame exactly when the frame is classified as
    standing and [prev_is_standing] is false; after any frame
    [prev_is_standing] holds the classification of the frame, so the frame
    after an edge is not an edge. *)
Theorem stand_up_edge_effect (now : R) (lms : list Landmark) (side : Side)
    (s s' : State) (evs : list Event) :
  0 < now ->
  choose_side lms VIS_THRESH = Some side ->
  process_landmarks now lms s = Some (s', evs) ->
  let std := stand_angle side lms in
  (is_stand_of std = true -> prev_is_standing s = false ->
   stand_up_time s' = Some now /\
   bad_posture_count s' = 0%Z /\
   count (is_sound reset_wav) evs = 1%nat) /\
  (prev_is_standing s = true ->
   stand_up_time s' = stand_up_time s /\
   count (is_sound reset_wav) evs = 0%nat /\
   (bad_posture_count s' = bad_posture_count s \/
    bad_posture_count s' = (bad_posture_count s + 1)%Z)) /\
  prev_is_standing s' = is_stand_of std /\
  (is_stand_of std = false ->
   stand_up_time s' = stand_up_time s /\
   count (is_sound reset_wav) evs = 0%nat /\
   (bad_posture_count s' = bad_posture_count s \/
    bad_posture_count s' = (bad_posture_count s + 1)%Z)) /\
  (count (is_sound reset_wav) evs = 1%nat <->
   is_stand_of std = true /\ prev_is_standing s = false) /\
  (count (is_sound reset_wav) evs <= 1)%nat.
Proof.
  intros Hnow Hside Hp std.
  destruct (process_landmarks_side now lms side s s' evs Hside Hp) as [-> ->].
  fold std.
  destruct (process_angles_effect now side (sit_angle side lms) std s)
    as (Ep & Eu & _ & Eb & _ & _ & Er & _).
  rewrite Ep, Eu, Eb, Er. clear Ep Eu Eb Er.
  split; [| split; [| split; [reflexivity | split; [| split]]]].
  4: { unfold stand_up_edge.
       destruct (is_stand_of std), (prev_is_standing s); cbn;
         split; try (intros [? ?]); try intros ?; try discriminate;
         try (split; reflexivity); reflexivity. }
  4: { destruct (stand_up_edge std s); lia. }
  3: { intros Hstand.
       assert (He : stand_up_edge std s = false)
         by (unfold stand_up_edge; rewrite Hstand; reflexivity).
       rewrite He. repeat split; try reflexivity.
       destruct (detection_fires now (sit_angle side lms) std s);
         [right | left]; lia. }
  - intros Hstand Hprev.
    assert (He : stand_up_edge std s = true)
      by (unfold stand_up_edge; rewrite Hstand, Hprev; reflexivity).
    assert (Hf : detection_fires now (sit_angle side lms) std s = false).
    { unfold detection_fires. rewrite suppressed_spec by exact Hnow.
      rewrite He. reflexivity. }
    rewrite He, Hf. repeat split; reflexivity.
  - intros Hprev.
    assert (He : stand_up_edge std s = false)
      by (unfold stand_up_edge; rewrite Hprev; apply andb_false_r).
    rewrite He. repeat split; try reflexivity.
    destruct (detection_fires now (sit_angle side lms) std s);
      [right | left]; lia.
Qed.

Lemma stand_up_edge_effect_witness :
  let r := process_angles 100 Left 90 180 initial_state in
  stand_up_time (fst r) = Some 100 /\
  bad_posture_count (fst r) = 0%Z /\
  count (is_sound reset_wav) (snd r) = 1%nat.
Proof.
  cbv zeta.
  destruct standing_slouched_measures as (Hside & Hsit & Hstd).
  refine (proj1 (stand_up_edge_effect 100 standing_slouched Left
                   initial_state _ _ _ Hside _) _ _).
  - lra.
  - rewrite standing_slouched_frame. rewrite <- surjective_pairing.
    reflexivity.
  - rewrite Hstd. unfold is_stand_of, fold_std, STAND_THRESHOLD.
    eval_cmp. reflexivity.
  - reflexivity.
Defined.

(** ** The pause after standing up *)

(** A frame inside the ten seconds after the stored stand-up time. *)
Lemma suppressed_frame (tl now t : R) (side : Side) (sit std0 : R)
    (s : State) :
  timestamps_ok tl s -> tl <= now -> 0 < now ->
  stand_up_time s = Some t -> now - t < 10 ->
  let r := process_angles now side sit std0 s in
  consecutive_bad_posture (fst r) = consecutive_bad_posture s /\
  bad_posture_count (fst r) = bad_posture_count s /\
  last_detection_time (fst r) = last_detection_time s /\
  count (is_sound siren_short_wav) (snd r) = 0%nat /\
  count is_paused_text (snd r) = 1%nat.
Proof.
  intros (Hu & _ & Hb & Hl) Htl Hnow Hsu Hwin. cbv zeta.
  destruct (Hu t Hsu) as [Hpos _].
  assert (Hzero : bad_posture_count s = 0%Z).
  { destruct (Z.eq_dec (bad_posture_count s) 0) as [E | E]; [exact E |].
    destruct Hl as [H1 H2]; [lia |]. specialize (H2 t Hsu). lra. }
  assert (Hsup : suppressed now std0 s = true).
  { rewrite suppressed_spec by exact Hnow.
    destruct (stand_up_edge std0 s); [reflexivity |].
    rewrite (check_paused_some now t) by (trivial || lra).
    apply Rltb_true. exact Hwin. }
  assert (Hf : detection_fires now sit std0 s = false)
    by (unfold detection_fires; rewrite Hsup; reflexivity).
  destruct (process_angles_effect now side sit std0 s)
    as (_ & _ & _ & Eb & El & Ec & _ & Eq & Et & _).
  rewrite Eb, El, Ec, Eq, Et, Hsup, Hf, Hzero.
  repeat split; try reflexivity.
  destruct (stand_up_edge std0 s); reflexivity.
Qed.

Lemma past_grace_unsuppressed (tl now t std0 : R) (s : State) :
  timestamps_ok tl s -> 0 < now ->
  stand_up_time s = Some t -> 10 <= now - t ->
  stand_up_edge std0 s = false ->
  suppressed now std0 s = false.
Proof.
  intros (Hu & _) Hnow Hsu Hwin He.
  destruct (Hu t Hsu) as [Hpos _].
  rewrite suppressed_spec, He by exact Hnow.
  rewrite (check_paused_some now t) by (trivial || lra).
  apply Rltb_false. exact Hwin.
Qed.

(** C7: in any run under a positive clock that never goes back, a frame with
    landmarks that comes less than 10 seconds after the stored stand-up time
    leaves [consecutive_bad_posture], [bad_posture_count] and
    [last_detection_time] as they were, plays no short siren and shows the
    "paused" text; more generally, whenever the test of line 188 succeeds,
    also on the frame of a stand-up edge itself, the slouch check changes
    nothing: the two counters and the detection time are as the stand-up
    transition left them.  A frame with a slouching angle that comes 10
    seconds or more after the stand-up time, and is not itself a stand-up
    edge, is not paused and is counted by the debounce rule. *)
Theorem stand_up_grace_window (tl now t : R) (lms : list Landmark)
    (side : Side) (s s' : State) (evs : list Event) :
  reachable tl s -> tl <= now -> 0 < now ->
  choose_side lms VIS_THRESH = Some side ->
  process_landmarks now lms s = Some (s', evs) ->
  stand_up_time s = Some t ->
  let sit := sit_angle side lms in
  let std := stand_angle side lms in
  (now - t < 10 ->
   consecutive_bad_posture s' = consecutive_bad_posture s /\
   bad_posture_count s' = bad_posture_count s /\
   last_detection_time s' = last_detection_time s /\
   count (is_sound siren_short_wav) evs = 0%nat /\
   count is_paused_text evs = 1%nat) /\
  (suppressed now std s = true ->
   consecutive_bad_posture s' = consecutive_bad_posture s /\
   bad_posture_count s'
   = (if stand_up_edge std s then 0%Z else bad_posture_count s) /\
   last_detection_time s' = last_detection_time s /\
   count (is_sound siren_short_wav) evs = 0%nat /\
   count is_paused_text evs = 1%nat) /\
  (10 <= now - t -> stand_up_edge std s = false ->
   sit <> 0 -> sit < 130 ->
   count is_paused_text evs = 0%nat /\
   ((3 <= consecutive_bad_posture s + 1)%Z /\
    5 <= now - last_detection_time s ->
    bad_posture_count s' = (bad_posture_count s + 1)%Z /\
    last_detection_time s' = now /\
    consecutive_bad_posture s' = 0%Z /\
    count (is_sound siren_short_wav) evs = 1%nat) /\
   (~ ((3 <= consecutive_bad_posture s + 1)%Z /\
       5 <= now - last_detection_time s) ->
    bad_posture_count s' = bad_posture_count s /\
    last_detection_time s' = last_detection_time s /\
    consecutive_bad_posture s' = (consecutive_bad_posture s + 1)%Z /\
    count (is_sound siren_short_wav) evs = 0%nat)).
Proof.
  intros Hr Htl Hnow Hside Hp Hsu sit std.
  destruct (process_landmarks_side now lms side s s' evs Hside Hp) as [-> ->].
  fold sit std.
  pose proof (reachable_timestamps_ok tl s Hr) as Hok.
  split; [| split].
  - intros Hwin.
    exact (suppressed_frame tl now t side sit std s Hok Htl Hnow Hsu Hwin).
  - intros Hsup.
    assert (Hf : detection_fires now sit std s = false)
      by (unfold detection_fires; rewrite Hsup; reflexivity).
    destruct (process_angles_effect now side sit std s)
      as (_ & _ & _ & Eb & El & Ec & _ & Eq & Et & _).
    rewrite Eb, El, Ec, Eq, Et, Hsup, Hf.
    repeat split; try reflexivity.
    destruct (stand_up_edge std s); lia.
  - intros Hwin He Hne Hlt.
    pose proof (past_grace_unsuppressed tl now t std s Hok Hnow Hsu Hwin He)
      as Hsup.
    exact (unsuppressed_bad_frame now side sit std s Hnow Hsup Hne Hlt).
Qed.

Lemma stand_up_grace_window_witness :
  let s1 := mkState 0 0 0 None false true (Some 100) None false in
  let r := process_angles 105 Left 90 90 s1 in
  consecutive_bad_posture (fst r) = 0%Z /\
  bad_posture_count (fst r) = 0%Z /\
  last_detection_time (fst r) = 0 /\
  count (is_sound siren_short_wav) (snd r) = 0%nat /\
  count is_paused_text (snd r) = 1%nat.
Proof.
  cbv zeta.
  destruct sitting_slouched_measures as (Hside & Hsit & Hstd).
  assert (E : process_angles 100 Left 90 180 initial_state
              = (mkState 0 0 0 None false true (Some 100) None false,
                 snd (process_angles 100 Left 90 180 initial_state))).
  { rewrite (surjective_pairing
               (process_angles 100 Left 90 180 initial_state)) at 1.
    f_equal. unfold initial_state. eval_frame. reflexivity. }
  assert (Hr : reachable 100
                 (mkState 0 0 0 None false true (Some 100) None false)).
  { refine (reach_frame 0 100 (Some standing_slouched) initial_state _ _
                        reach_init _ _ _).
    - lra.
    - lra.
    - cbn [process_frame]. rewrite standing_slouched_frame, E. reflexivity. }
  refine (proj1 (stand_up_grace_window 100 105 100 sitting_slouched Left
                   (mkState 0 0 0 None false true (Some 100) None false)
                   _ _ Hr _ _ Hside _ _) _).
  - lra.
  - lra.
  - rewrite sitting_slouched_frame. rewrite <- surjective_pairing.
    reflexivity.
  - reflexivity.
  - lra.
Defined.

(** ** The sitting timer *)

(** C5, amended: after a frame classified as standing and after a frame
    without landmarks [sitting_start_time] is [None]; after a frame
    classified as sitting it is set, to its former value when it was set and
    to [now] otherwise; a frame with landmarks that is neither standing nor
    sitting (its sit angle is 0) leaves it as it was, set or not. *)
Theorem sitting_start_time_update (now : R) (f : Frame) (s s' : State)
    (evs : list Event) :
  process_frame now f s = Some (s', evs) ->
  match f with
  | None => sitting_start_time s' = None
  | Some lms =>
      exists side,
        choose_side lms VIS_THRESH = Some side /\
        let sit := sit_angle side lms in
        let std := stand_angle side lms in
        (is_stand_of std = true -> sitting_start_time s' = None) /\
        (is_sit_of sit std = true ->
         sitting_start_time s'
         = Some (match sitting_start_time s with
                 | Some t => t
                 | None => now
                 end)) /\
        (is_stand_of std = false -> is_sit_of sit std = false ->
         sitting_start_time s' = sitting_start_time s)
  end.
Proof.
  intros Hf. destruct f as [lms |]; cbn [process_frame] in Hf.
  - destruct (process_landmarks_inv now lms s s' evs Hf) as (side & Hside & E).
    exists side. split; [exact Hside |]. cbv zeta.
    destruct (process_angles_effect now side (sit_angle side lms)
                (stand_angle side lms) s) as (_ & _ & Es & _).
    rewrite E in Es. cbn [fst] in Es. rewrite Es. clear Es.
    split; [| split].
    + intros ->. reflexivity.
    + intros Hsit. unfold is_sit_of in Hsit.
      apply andb_true_iff in Hsit. destruct Hsit as [Hnz Hns].
      apply negb_true_iff in Hns.
      unfold is_sit_of. rewrite Hns, Hnz.
      destruct (sitting_start_time s); reflexivity.
    + intros -> ->. destruct (sitting_start_time s); reflexivity.
  - injection Hf as Hf.
    destruct (handle_no_detection_effect s) as (Es & _).
    rewrite Hf in Es. exact Es.
Qed.

Lemma sitting_start_time_update_witness :
  let r := process_angles 100 Left 180 90 initial_state in
  exists side,
    choose_side sitting_upright VIS_THRESH = Some side /\
    (is_stand_of (stand_angle side sitting_upright) = true ->
     sitting_start_time (fst r) = None) /\
    (is_sit_of (sit_angle side sitting_upright)
               (stand_angle side sitting_upright) = true ->
     sitting_start_time (fst r) = Some 100) /\
    (is_stand_of (stand_angle side sitting_upright) = false ->
     is_sit_of (sit_angle side sitting_upright)
               (stand_angle side sitting_upright) = false ->
     sitting_start_time (fst r) = sitting_start_time initial_state).
Proof.
  cbv zeta.
  apply (sitting_start_time_update 100 (Some sitting_upright) initial_state
           (fst (process_angles 100 Left 180 90 initial_state))
           (snd (process_angles 100 Left 180 90 initial_state))).
  cbn [process_frame]. rewrite sitting_upright_frame.
  rewrite <- surjective_pairing. reflexivity.
Defined.

Lemma run_cons (now : R) (f : Frame) (rest : list (R * Frame)) (s : State) :
  run ((now, f) :: rest) s
  = match process_frame now f s with
    | Some (s1, e1) =>
        match run rest s1 with
        | Some (s2, e2) => Some (s2, e1 ++ e2)
        | None => None
        end
    | None => None
    end.
Proof. reflexivity. Qed.

(** Evaluates a run over the sample poses frame by frame. *)
Ltac eval_run :=
  repeat (rewrite run_cons; cbn [process_frame];
          first [ rewrite standing_slouched_frame
                | rewrite sitting_slouched_frame
                | rewrite sitting_upright_frame
                | rewrite torso_only_frame ];
          eval_frame);
  cbn [run].

(** C5 as worded fails on a frame that is neither sitting nor standing: a
    sitting frame at time 100 starts the timer, and the next frame, at time
    101 with nose and knee hidden so that both angles are 0, is not
    classified as sitting, yet [sitting_start_time] is still set. *)
Lemma unknown_frame_keeps_sitting_timer :
  exists s' evs,
    run [(100, Some sitting_upright); (101, Some torso_only)] initial_state
    = Some (s', evs) /\
    choose_side torso_only VIS_THRESH = Some Left /\
    is_stand_of (stand_angle Left torso_only) = false /\
    is_sit_of (sit_angle Left torso_only) (stand_angle Left torso_only)
    = false /\
    sitting_start_time s' = Some 100.
Proof.
  destruct torso_only_measures as (Hside & Hsit & Hstd).
  rewrite Hsit, Hstd.
  eexists. eexists.
  split; [| split; [exact Hside | split; [| split]]].
  - unfold initial_state. eval_run. reflexivity.
  - unfold is_stand_of, fold_std, STAND_THRESHOLD. eval_cmp. reflexivity.
  - unfold is_sit_of. eval_cmp. reflexivity.
  - reflexivity.
Qed.

(** ** The no-detection frame and the alert loop *)

(** C8: whatever the state, a frame without landmarks clears
    [sitting_start_time], [stretch_prompted] and [consecutive_bad_posture],
    sets [prev_is_standing] to false, leaves the alert loop inactive with no
    thread handle kept from an active loop and starts no thread, draws the
    "No detection" text once, and leaves [bad_posture_count] as it was. *)
Theorem no_detection_reset (s : State) :
  let r := handle_no_detection s in
  sitting_start_time (fst r) = None /\
  stretch_prompted (fst r) = false /\
  consecutive_bad_posture (fst r) = 0%Z /\
  prev_is_standing (fst r) = false /\
  ping_active (fst r) = false /\
  ping_thread (fst r) = (if ping_active s then None else ping_thread s) /\
  count is_thread_start (snd r) = 0%nat /\
  count is_no_detection_text (snd r) = 1%nat /\
  bad_posture_count (fst r) = bad_posture_count s.
Proof.
  cbv zeta.
  destruct (handle_no_detection_effect s)
    as (Es & Ep & Ec & Ev & Ea & Eb & _ & _ & En & Et).
  repeat split; try assumption.
  unfold handle_no_detection, manage_sound_loop. cbn.
  destruct (ping_active s) eqn:E; cbn; [| rewrite ?E; reflexivity].
  destruct (ping_thread s) eqn:T; cbn; rewrite ?T; reflexivity.
Qed.

Lemma truthy_positive (t : R) : 0 < t -> truthy (Some t) = Some t.
Proof. intros H. unfold truthy. rewrite Reqb_false by lra. reflexivity. Qed.

(** C2, amended: in any run under a positive clock that never goes back,
    after a frame with landmarks the alert loop is active exactly when
    [bad_posture_count] is at least 3 or the frame is classified as sitting
    and [sitting_start_time] lies 3600 seconds or more before [now]; after
    a frame without landmarks the alert loop is inactive, whatever the value
    of [bad_posture_count]. *)
Theorem alert_loop_condition (tl now : R) (f : Frame) (s s' : State)
    (evs : list Event) :
  reachable tl s -> tl <= now -> 0 < now ->
  process_frame now f s = Some (s', evs) ->
  match f with
  | Some lms =>
      exists side,
        choose_side lms VIS_THRESH = Some side /\
        (ping_active s' = true <->
         (3 <= bad_posture_count s')%Z \/
         (is_sit_of (sit_angle side lms) (stand_angle side lms) = true /\
          exists t, sitting_start_time s' = Some t /\ 3600 <= now - t))
  | None => ping_active s' = false
  end.
Proof.
  intros Hr Htl Hnow Hf.
  pose proof (reach_frame tl now f s s' evs Hr Htl Hnow Hf) as Hr'.
  apply reachable_timestamps_ok in Hr'. destruct Hr' as (_ & Hs & _).
  destruct f as [lms |]; cbn [process_frame] in Hf.
  - destruct (process_landmarks_inv now lms s s' evs Hf) as (side & Hside & E).
    exists side. split; [exact Hside |].
    destruct (process_angles_effect now side (sit_angle side lms)
                (stand_angle side lms) s) as (_ & _ & _ & _ & _ & _ & _ & _ & _ & Ea).
    rewrite E in Ea. cbn [fst] in Ea. rewrite Ea. clear Ea.
    rewrite orb_true_iff. unfold stretch_time, MAX_COUNTER.
    rewrite andb_true_iff, Z.leb_le.
    split.
    + intros [[Hsit Hlong] | Hcount]; [right | left; exact Hcount].
      split; [exact Hsit |].
      destruct (sitting_start_time s') as [t |]; [| discriminate].
      rewrite truthy_positive in Hlong by (destruct (Hs t eq_refl); lra).
      exists t. split; [reflexivity |]. apply Rleb_spec in Hlong.
      exact Hlong.
    + intros [Hcount | (Hsit & t & Ht & Hlong)]; [right; exact Hcount | left].
      split; [exact Hsit |]. rewrite Ht.
      rewrite truthy_positive by (destruct (Hs t Ht); lra).
      apply Rleb_true. exact Hlong.
  - injection Hf as Hf.
    destruct (handle_no_detection_effect s) as (_ & _ & _ & _ & Ea & _).
    rewrite Hf in Ea. exact Ea.
Qed.

Lemma alert_loop_condition_witness :
  let r := process_angles 100 Left 90 90 initial_state in
  exists side,
    choose_side sitting_slouched VIS_THRESH = Some side /\
    (ping_active (fst r) = true <->
     (3 <= bad_posture_count (fst r))%Z \/
     (is_sit_of (sit_angle side sitting_slouched)
                (stand_angle side sitting_slouched) = true /\
      exists t, sitting_start_time (fst r) = Some t /\ 3600 <= 100 - t)).
Proof.
  cbv zeta.
  apply (alert_loop_condition 0 100 (Some sitting_slouched) initial_state
           (fst (process_angles 100 Left 90 90 initial_state))
           (snd (process_angles 100 Left 90 90 initial_state)) reach_init).
  - lra.
  - lra.
  - cbn [process_frame]. rewrite sitting_slouched_frame.
    rewrite <- surjective_pairing. reflexivity.
Defined.

(** C2 as worded fails on a frame without landmarks: three debounced
    detections, at times 102, 107 and 112, bring [bad_posture_count] to 3
    and start the alert loop; the frame without landmarks at time 113 stops
    the loop and leaves the count at 3. *)
Lemma alert_stopped_with_count_three :
  exists s evs s' evs',
    run [(100, Some sitting_slouched); (101, Some sitting_slouched);
         (102, Some sitting_slouched); (105, Some sitting_slouched);
         (106, Some sitting_slouched); (107, Some sitting_slouched);
         (110, Some sitting_slouched); (111, Some sitting_slouched);
         (112, Some sitting_slouched)] initial_state = Some (s, evs) /\
    bad_posture_count s = 3%Z /\ ping_active s = true /\
    process_frame 113 None s = Some (s', evs') /\
    bad_posture_count s' = 3%Z /\ ping_active s' = false.
Proof.
  eexists. eexists. eexists. eexists.
  split; [| split; [| split; [| split; [| split]]]].
  - unfold initial_state. eval_run. reflexivity.
  - reflexivity.
  - reflexivity.
  - cbn [process_frame]. eval_frame. reflexivity.
  - reflexivity.
  - reflexivity.
Qed.

(** C10: a frame without landmarks leaves [stand_up_time] and
    [last_detection_time] as they were, so that in any run under a positive
    clock that never goes back the next frame with landmarks is still paused
    when it comes less than 10 seconds after the stored stand-up time, and
    still fires no detection when it comes less than 5 seconds after the
    last one. *)
Theorem no_detection_keeps_timers (tl now : R) (lms : list Landmark)
    (side : Side) (s s' : State) (evs : list Event) :
  reachable tl s -> tl <= now -> 0 < now ->
  let s0 := fst (handle_no_detection s) in
  choose_side lms VIS_THRESH = Some side ->
  process_landmarks now lms s0 = Some (s', evs) ->
  stand_up_time s0 = stand_up_time s /\
  last_detection_time s0 = last_detection_time s /\
  (forall t, stand_up_time s = Some t -> now - t < 10 ->
             count is_paused_text evs = 1%nat /\
             count (is_sound siren_short_wav) evs = 0%nat /\
             bad_posture_count s' = bad_posture_count s /\
             last_detection_time s' = last_detection_time s) /\
  (now - last_detection_time s < 5 ->
   count (is_sound siren_short_wav) evs = 0%nat /\
   last_detection_time s' = last_detection_time s /\
   (bad_posture_count s' <= bad_posture_count s)%Z).
Proof.
  intros Hr Htl Hnow s0 Hside Hp.
  destruct (process_landmarks_side now lms side s0 s' evs Hside Hp)
    as [-> ->].
  pose proof (reachable_timestamps_ok tl s Hr) as Hok.
  pose proof (handle_no_detection_timestamps_ok tl tl s Hok (Rle_refl tl))
    as Hok0.
  fold s0 in Hok0.
  destruct (handle_no_detection_effect s)
    as (_ & _ & _ & _ & _ & Eb & Eu & El & _).
  fold s0 in Eb, Eu, El.
  split; [exact Eu |]. split; [exact El |]. split.
  - intros t Hsu Hwin. rewrite <- Eu in Hsu.
    destruct (suppressed_frame tl now t side (sit_angle side lms)
                (stand_angle side lms) s0 Hok0 Htl Hnow Hsu Hwin)
      as (_ & Hb & Hl & Hq & Ht).
    rewrite Hb, Hl, Eb, El. repeat split; assumption.
  - intros Hcool.
    destruct (process_angles_effect now side (sit_angle side lms)
                (stand_angle side lms) s0)
      as (_ & _ & _ & Hb & Hl & _ & _ & Hq & _).
    assert (Hf : detection_fires now (sit_angle side lms)
                   (stand_angle side lms) s0 = false).
    { destruct (detection_fires _ _ _ s0) eqn:E; [| reflexivity].
      apply detection_fires_spec in E. rewrite El in E.
      unfold DETECTION_COOLDOWN in E. lra. }
    rewrite Hb, Hl, Hq, Hf, Eb, El.
    destruct Hok as (_ & _ & Hnn & _).
    repeat split; try reflexivity.
    destruct (stand_up_edge _ s0); lia.
Qed.

Lemma no_detection_keeps_timers_witness :
  let s1 := mkState 0 0 0 None false true (Some 100) None false in
  let r := process_angles 105 Left 90 90 (fst (handle_no_detection s1)) in
  stand_up_time (fst (handle_no_detection s1)) = Some 100 /\
  last_detection_time (fst (handle_no_detection s1)) = 0 /\
  count is_paused_text (snd r) = 1%nat /\
  count (is_sound siren_short_wav) (snd r) = 0%nat /\
  bad_posture_count (fst r) = 0%Z /\
  last_detection_time (fst r) = 0.
Proof.
  cbv zeta.
  destruct sitting_slouched_measures as (Hside & Hsit & Hstd).
  assert (E : process_angles 100 Left 90 180 initial_state
              = (mkState 0 0 0 None false true (Some 100) None false,
                 snd (process_angles 100 Left 90 180 initial_state))).
  { rewrite (surjective_pairing
               (process_angles 100 Left 90 180 initial_state)) at 1.
    f_equal. unfold initial_state. eval_frame. reflexivity. }
  assert (Hr : reachable 100
                 (mkState 0 0 0 None false true (Some 100) None false)).
  { refine (reach_frame 0 100 (Some standing_slouched) initial_state _ _
                        reach_init _ _ _).
    - lra.
    - lra.
    - cbn [process_frame]. rewrite standing_slouched_frame, E. reflexivity. }
  destruct (no_detection_keeps_timers 100 105 sitting_slouched Left
              (mkState 0 0 0 None false true (Some 100) None false)
              (fst (process_angles 105 Left 90 90
                      (fst (handle_no_detection
                              (mkState 0 0 0 None false true (Some 100)
                                       None false)))))
              (snd (process_angles 105 Left 90 90
                      (fst (handle_no_detection
                              (mkState 0 0 0 None false true (Some 100)
                                       None false)))))
              Hr) as (Hu & Hl & Hwin & _).
  - lra.
  - lra.
  - exact Hside.
  - rewrite sitting_slouched_frame. rewrite <- surjective_pairing.
    reflexivity.
  - destruct (Hwin 100 eq_refl) as (H1 & H2 & H3 & H4); [lra |].
    repeat split; assumption.
Defined.

(** * Further properties of the code *)

(** ** The angle calculator on arbitrary points *)

Lemma polar_difference_bounds (a b c : R * R) :
  -360 <= degrees (atan2 (snd c - snd b) (fst c - fst b)
                   - atan2 (snd a - snd b) (fst a - fst b)) <= 360.
Proof.
  pose proof (atan2_bounds (snd c - snd b) (fst c - fst b)) as Hp.
  pose proof (atan2_bounds (snd a - snd b) (fst a - fst b)) as Hq.
  assert (H : -2 * 180 <= degrees (atan2 (snd c - snd b) (fst c - fst b)
                - atan2 (snd a - snd b) (fst a - fst b)) <= 2 * 180)
    by (apply degrees_bounds; lra).
  lra.
Qed.

Lemma degrees_ge_minus_180 (r : R) : -180 <= degrees r <-> - PI <= r.
Proof.
  pose proof PI_RGT_0 as Hpi.
  assert (Hi : 0 < / PI) by (apply Rinv_0_lt_compat; exact Hpi).
  assert (Hone : PI * / PI = 1) by (apply Rinv_r; lra).
  unfold degrees, Rdiv. split; intros H; nra.
Qed.

(** The value is at most 180 exactly when the polar angle of the ray to
    [c] is not more than half a turn behind the polar angle of the ray to
    [a]. *)
Theorem calculate_angle_le_180_iff (a b c : R * R) :
  calculate_angle a b c <= 180 <->
  - PI <= atan2 (snd c - snd b) (fst c - fst b)
          - atan2 (snd a - snd b) (fst a - fst b).
Proof.
  rewrite <- degrees_ge_minus_180.
  pose proof (polar_difference_bounds a b c) as Hb.
  unfold calculate_angle.
  set (d := degrees (atan2 (snd c - snd b) (fst c - fst b)
                     - atan2 (snd a - snd b) (fst a - fst b))) in *.
  destruct (Rltb d 180) eqn:E.
  - apply Rltb_spec in E. split; intros H.
    + destruct (Rle_dec 0 d) as [Hd | Hd]; [lra |].
      rewrite Rabs_left in H by lra. lra.
    + apply Rabs_le. lra.
  - apply Rltb_nlt in E. split; intros H; [lra |].
    apply Rabs_le. lra.
Qed.

(** Moving the three points by the same vector does not change the value. *)
Theorem calculate_angle_translate (a b c : R * R) (dx dy : R) :
  calculate_angle (fst a + dx, snd a + dy) (fst b + dx, snd b + dy)
                  (fst c + dx, snd c + dy)
  = calculate_angle a b c.
Proof.
  unfold calculate_angle. cbn [fst snd].
  replace (snd c + dy - (snd b + dy)) with (snd c - snd b) by ring.
  replace (fst c + dx - (fst b + dx)) with (fst c - fst b) by ring.
  replace (snd a + dy - (snd b + dy)) with (snd a - snd b) by ring.
  replace (fst a + dx - (fst b + dx)) with (fst a - fst b) by ring.
  reflexivity.
Qed.

Lemma atan2_scale (k y x : R) : 0 < k -> atan2 (k * y) (k * x) = atan2 y x.
Proof.
  intros Hk. unfold atan2.
  assert (Hq : x <> 0 -> k * y / (k * x) = y / x) by (intros Hx; field; lra).
  assert (E1 : Rltb 0 (k * x) = Rltb 0 x).
  { destruct (Rltb 0 x) eqn:E; reflect_cmp;
      [apply Rltb_true | apply Rltb_false]; nra. }
  assert (E2 : Rltb (k * x) 0 = Rltb x 0).
  { destruct (Rltb x 0) eqn:E; reflect_cmp;
      [apply Rltb_true | apply Rltb_false]; nra. }
  assert (E3 : Rleb 0 (k * y) = Rleb 0 y).
  { destruct (Rleb 0 y) eqn:E; reflect_cmp;
      [apply Rleb_true | apply Rleb_false]; nra. }
  assert (E4 : Rltb 0 (k * y) = Rltb 0 y).
  { destruct (Rltb 0 y) eqn:E; reflect_cmp;
      [apply Rltb_true | apply Rltb_false]; nra. }
  assert (E5 : Rltb (k * y) 0 = Rltb y 0).
  { destruct (Rltb y 0) eqn:E; reflect_cmp;
      [apply Rltb_true | apply Rltb_false]; nra. }
  rewrite E1, E2, E3, E4, E5.
  destruct (Rltb 0 x) eqn:Ex.
  - apply Rltb_spec in Ex. rewrite Hq by lra. reflexivity.
  - destruct (Rltb x 0) eqn:Ex'; [| reflexivity].
    apply Rltb_spec in Ex'. rewrite Hq by lra. reflexivity.
Qed.

(** Scaling all coordinates by the same positive factor, as between
    normalised and pixel coordinates of a square image, does not change the
    value. *)
Theorem calculate_angle_scale (k : R) (a b c : R * R) :
  0 < k ->
  calculate_angle (k * fst a, k * snd a) (k * fst b, k * snd b)
                  (k * fst c, k * snd c)
  = calculate_angle a b c.
Proof.
  intros Hk. unfold calculate_angle. cbn [fst snd].
  replace (k * snd c - k * snd b) with (k * (snd c - snd b)) by ring.
  replace (k * fst c - k * fst b) with (k * (fst c - fst b)) by ring.
  replace (k * snd a - k * snd b) with (k * (snd a - snd b)) by ring.
  replace (k * fst a - k * fst b) with (k * (fst a - fst b)) by ring.
  rewrite !atan2_scale by exact Hk. reflexivity.
Qed.

Lemma calculate_angle_scale_witness :
  calculate_angle (640 * fst (1, 0), 640 * snd (1, 0))
                  (640 * fst (0, 0), 640 * snd (0, 0))
                  (640 * fst (0, 1), 640 * snd (0, 1))
  = calculate_angle (1, 0) (0, 0) (0, 1).
Proof. apply (calculate_angle_scale 640 (1, 0) (0, 0) (0, 1)). lra. Defined.

(** ** Angles read from a snapshot *)

(** A reading other than the sentinel 0 means that the three indices were
    in range, that none of the three landmarks was below the visibility
    threshold, and that the reading is the angle at the middle landmark. *)
Theorem get_angle_nonzero (i j k : nat) (lms : list Landmark) (v : R) :
  get_angle i j k lms v <> 0 ->
  exists la lb lc,
    nth_error lms i = Some la /\ nth_error lms j = Some lb /\
    nth_error lms k = Some lc /\
    v <= visibility la /\ v <= visibility lb /\ v <= visibility lc /\
    get_angle i j k lms v
    = calculate_angle (lm_x la, lm_y la) (lm_x lb, lm_y lb)
                      (lm_x lc, lm_y lc).
Proof.
  unfold get_angle.
  destruct (nth_error lms i) as [la |]; [| intros H; contradiction H; reflexivity].
  destruct (nth_error lms j) as [lb |]; [| intros H; contradiction H; reflexivity].
  destruct (nth_error lms k) as [lc |]; [| intros H; contradiction H; reflexivity].
  destruct (Rltb (min3 (visibility la) (visibility lb) (visibility lc)) v)
    eqn:E; [intros H; contradiction H; reflexivity |].
  intros _. apply Rltb_nlt in E. unfold min3 in E.
  pose proof (Rmin_l (Rmin (visibility la) (visibility lb)) (visibility lc)).
  pose proof (Rmin_r (Rmin (visibility la) (visibility lb)) (visibility lc)).
  pose proof (Rmin_l (visibility la) (visibility lb)).
  pose proof (Rmin_r (visibility la) (visibility lb)).
  exists la, lb, lc. repeat split; try reflexivity; lra.
Qed.

Lemma get_angle_nonzero_witness :
  exists la lb lc,
    nth_error sitting_slouched NOSE = Some la /\
    nth_error sitting_slouched LEFT_SHOULDER = Some lb /\
    nth_error sitting_slouched LEFT_HIP = Some lc /\
    VIS_THRESH <= visibility la /\ VIS_THRESH <= visibility lb /\
    VIS_THRESH <= visibility lc /\
    get_angle NOSE LEFT_SHOULDER LEFT_HIP sitting_slouched VIS_THRESH
    = calculate_angle (lm_x la, lm_y la) (lm_x lb, lm_y lb)
                      (lm_x lc, lm_y lc).
Proof.
  apply (get_angle_nonzero NOSE LEFT_SHOULDER LEFT_HIP sitting_slouched
           VIS_THRESH).
  destruct sitting_slouched_measures as (_ & Hsit & _).
  unfold sit_angle in Hsit. cbn [shoulder hip] in Hsit. rewrite Hsit. lra.
Defined.

Lemma get_angle_bounds (i j k : nat) (lms : list Landmark) (v : R) :
  0 <= get_angle i j k lms v <= 360.
Proof.
  unfold get_angle.
  destruct (nth_error lms i) as [la |]; [| lra].
  destruct (nth_error lms j) as [lb |]; [| lra].
  destruct (nth_error lms k) as [lc |]; [| lra].
  destruct (Rltb _ v); [lra |].
  unfold calculate_angle.
  pose proof (polar_difference_bounds (lm_x la, lm_y la) (lm_x lb, lm_y lb)
                (lm_x lc, lm_y lc)) as Hb.
  split; [apply Rabs_pos |].
  destruct (Rltb _ 180) eqn:E; reflect_cmp; apply Rabs_le; lra.
Qed.

(** The knee-hip-shoulder angle that the classification uses, that is the
    reading after the fold of line 168, always lies between 0 and 180,
    whatever the snapshot; values that [calculate_angle] returns above 180
    are brought back by the fold. *)
Theorem stand_angle_folded (side : Side) (lms : list Landmark) :
  0 <= fold_std (stand_angle side lms) <= 180.
Proof.
  unfold stand_angle, fold_std.
  pose proof (get_angle_bounds (knee side) (hip side) (shoulder side) lms
                VIS_THRESH) as Hb.
  destruct (Rltb 180 _) eqn:E; reflect_cmp; lra.
Qed.

(** ** Side selection on short and on mirrored snapshots *)

Lemma choose_side_short (lms : list Landmark) (v : R) :
  (length lms <= 24)%nat -> choose_side lms v = None.
Proof.
  intros Hle. unfold choose_side, RIGHT_HIP.
  assert (E24 : nth_error lms 24 = None) by (apply nth_error_None; exact Hle).
  rewrite E24.
  destruct (nth_error lms LEFT_SHOULDER), (nth_error lms RIGHT_SHOULDER),
    (nth_error lms LEFT_HIP); reflexivity.
Qed.

Lemma choose_side_long (lms : list Landmark) (v : R) :
  (24 < length lms)%nat -> exists side, choose_side lms v = Some side.
Proof.
  intros Hgt.
  unfold choose_side, LEFT_SHOULDER, RIGHT_SHOULDER, LEFT_HIP, RIGHT_HIP, NOSE.
  destruct (nth_error lms 11) as [Ls |] eqn:E11;
    [| apply nth_error_None in E11; lia].
  destruct (nth_error lms 12) as [Rs |] eqn:E12;
    [| apply nth_error_None in E12; lia].
  destruct (nth_error lms 23) as [Lh |] eqn:E23;
    [| apply nth_error_None in E23; lia].
  destruct (nth_error lms 24) as [Rh |] eqn:E24;
    [| apply nth_error_None in E24; lia].
  destruct (nth_error lms 0) as [nose |] eqn:E0;
    [| apply nth_error_None in E0; lia].
  cbv zeta.
  repeat match goal with
         | |- exists _, (if ?c then _ else _) = _ => destruct c
         end; eexists; reflexivity.
Qed.

(** [choose_side] raises [IndexError] exactly on snapshots with fewer than
    25 landmarks (the right hip has index 24); on longer ones it answers. *)
Theorem choose_side_fails_iff (lms : list Landmark) (v : R) :
  choose_side lms v = None <-> (length lms <= 24)%nat.
Proof.
  split; [| apply choose_side_short].
  intros H.
  destruct (Nat.le_gt_cases (length lms) 24) as [Hle | Hgt]; [exact Hle |].
  destruct (choose_side_long lms v Hgt) as [side Hs]. congruence.
Qed.

(** The left side is only chosen on strict evidence: when a snapshot makes
    [choose_side] answer left, the snapshot with the left and right
    shoulders and hips exchanged makes it answer right.  (The converse does
    not hold: a complete tie gives right on both.) *)
Theorem choose_side_mirror (lms lms' : list Landmark) (v : R)
    (nose Ls Rs Lh Rh : Landmark) :
  nth_error lms NOSE = Some nose -> nth_error lms' NOSE = Some nose ->
  nth_error lms LEFT_SHOULDER = Some Ls ->
  nth_error lms RIGHT_SHOULDER = Some Rs ->
  nth_error lms LEFT_HIP = Some Lh -> nth_error lms RIGHT_HIP = Some Rh ->
  nth_error lms' LEFT_SHOULDER = Some Rs ->
  nth_error lms' RIGHT_SHOULDER = Some Ls ->
  nth_error lms' LEFT_HIP = Some Rh -> nth_error lms' RIGHT_HIP = Some Lh ->
  choose_side lms v = Some Left -> choose_side lms' v = Some Right.
Proof.
  intros Hn Hn' H1 H2 H3 H4 H1' H2' H3' H4'.
  unfold choose_side.
  rewrite Hn, Hn', H1, H2, H3, H4, H1', H2', H3', H4'. cbv zeta.
  generalize ((lm_x nose - lm_x Ls) ^ 2 + (lm_y nose - lm_y Ls) ^ 2).
  generalize ((lm_x nose - lm_x Rs) ^ 2 + (lm_y nose - lm_y Rs) ^ 2).
  generalize (visibility Ls + visibility Lh).
  generalize (visibility Rs + visibility Rh).
  intros vr vl dR dL.
  split_cmp; cbn [andb]; reflect_cmp; intros H;
    try discriminate; try reflexivity; exfalso; lra.
Qed.

Lemma choose_side_mirror_witness :
  choose_side (pose (at_xy 1 0) hidden (at_xy 0 0) hidden (at_xy 0 1)
                    hidden (at_xy 1 1)) VIS_THRESH = Some Right.
Proof.
  apply (choose_side_mirror sitting_slouched _ VIS_THRESH
           (at_xy 1 0) (at_xy 0 0) hidden (at_xy 0 1) hidden);
    try reflexivity.
  exact (proj1 sitting_slouched_measures).
Defined.

(** ** The alert loop and its thread *)

(** Asking twice for the same state of the alert loop does nothing the
    second time: no thread is started or joined and the state stays. *)
Theorem manage_sound_loop_idempotent (s : State) (b : bool) :
  manage_sound_loop (fst (manage_sound_loop s b)) b
  = (fst (manage_sound_loop s b), []).
Proof.
  unfold manage_sound_loop.
  destruct b, (ping_active s) eqn:E; cbn; rewrite ?E; cbn; try reflexivity.
  destruct (ping_thread s); cbn; reflexivity.
Qed.

Lemma manage_sound_loop_thread (s : State) (b : bool) :
  handle_ok s ->
  let r := manage_sound_loop s b in
  handle_ok (fst r) /\
  (count is_thread_start (snd r) + running s
   = count is_thread_join (snd r) + running (fst r))%nat.
Proof.
  unfold handle_ok, running, manage_sound_loop. intros H.
  destruct b, (ping_active s) eqn:E; cbn; rewrite ?E; cbn;
    try (split; [exact H | reflexivity]).
  - split; reflexivity.
  - rewrite H. cbn. split; reflexivity.
Qed.

Lemma steps_keep_thread (now sit : R) (is_sit is_stand b : bool) (s : State) :
  (ping_thread (sitting_timer now is_sit is_stand s) = ping_thread s) /\
  (ping_thread (fst (stand_up_transition now is_stand s)) = ping_thread s /\
   count is_thread_start (snd (stand_up_transition now is_stand s)) = 0%nat /\
   count is_thread_join (snd (stand_up_transition now is_stand s)) = 0%nat) /\
  (ping_thread (fst (posture_check now sit is_stand s)) = ping_thread s /\
   count is_thread_start (snd (posture_check now sit is_stand s)) = 0%nat /\
   count is_thread_join (snd (posture_check now sit is_stand s)) = 0%nat) /\
  (ping_thread (fst (stretch_prompt b s)) = ping_thread s /\
   count is_thread_start (snd (stretch_prompt b s)) = 0%nat /\
   count is_thread_join (snd (stretch_prompt b s)) = 0%nat) /\
  (count is_thread_start (exceeded_notice b s) = 0%nat /\
   count is_thread_join (exceeded_notice b s) = 0%nat).
Proof.
  split; [| split; [| split; [| split]]].
  - unfold sitting_timer.
    destruct is_sit, is_stand, (sitting_start_time s); reflexivity.
  - unfold stand_up_transition.
    destruct (is_stand && negb (prev_is_standing s)); cbn;
      repeat split; reflexivity.
  - unfold posture_check.
    destruct (check_paused now s); [cbn; repeat split; reflexivity |].
    destruct (bad_angle sit); [| destruct is_stand; cbn; repeat split;
                                 reflexivity].
    cbv zeta.
    destruct ((3 <=? _)%Z && _); cbn; repeat split; reflexivity.
  - unfold stretch_prompt.
    destruct b, (stretch_prompted s); cbn; repeat split; reflexivity.
  - unfold exceeded_notice.
    destruct b, (ping_active s); cbn; repeat split; reflexivity.
Qed.

Lemma process_angles_thread (now : R) (side : Side) (sit std0 : R)
    (s : State) :
  handle_ok s ->
  let r := process_angles now side sit std0 s in
  handle_ok (fst r) /\
  (count is_thread_start (snd r) + running s
   = count is_thread_join (snd r) + running (fst r))%nat.
Proof.
  intros Hok. rewrite process_angles_unfold. cbv zeta.
  set (is_stand := is_stand_of std0). set (is_sit := is_sit_of sit std0).
  set (s1 := sitting_timer now is_sit is_stand s).
  set (r2 := stand_up_transition now is_stand s1).
  set (r3 := posture_check now sit is_stand (fst r2)).
  set (st := stretch_time now is_sit (fst r3)).
  set (r4 := stretch_prompt st (fst r3)).
  set (ex := (MAX_COUNTER <=? bad_posture_count (fst r4))%Z).
  destruct (sitting_timer_keeps now is_sit is_stand s)
    as (_ & _ & _ & _ & _ & A1).
  destruct (stand_up_transition_keeps now is_stand s1) as (_ & _ & _ & _ & A2).
  destruct (posture_check_keeps now sit is_stand (fst r2)) as (_ & _ & _ & A3).
  destruct (stretch_prompt_keeps st (fst r3)) as (_ & _ & _ & _ & _ & _ & A4).
  destruct (steps_keep_thread now sit is_sit is_stand st s) as (T1 & _).
  destruct (steps_keep_thread now sit is_sit is_stand st s1)
    as (_ & (T2 & S2 & J2) & _).
  destruct (steps_keep_thread now sit is_sit is_stand st (fst r2))
    as (_ & _ & (T3 & S3 & J3) & _).
  destruct (steps_keep_thread now sit is_sit is_stand st (fst r3))
    as (_ & _ & _ & (T4 & S4 & J4) & _).
  destruct (steps_keep_thread now sit is_sit is_stand ex (fst r4))
    as (_ & _ & _ & _ & (S5 & J5)).
  fold s1 in A1, T1. fold r2 in A2, T2, S2, J2. fold r3 in A3, T3, S3, J3.
  fold r4 in A4, T4, S4, J4.
  assert (Hok4 : handle_ok (fst r4)).
  { unfold handle_ok in *. rewrite T4, T3, T2, T1, A4, A3, A2, A1. exact Hok. }
  assert (Hrun : running (fst r4) = running s).
  { unfold running. rewrite A4, A3, A2, A1. reflexivity. }
  destruct (manage_sound_loop_thread (fst r4) (st || ex) Hok4) as [Hok5 Hbal].
  cbn [fst snd].
  split.
  - unfold handle_ok in *. cbn [ping_thread ping_active set_prev_is_standing].
    exact Hok5.
  - rewrite !count_app, S2, J2, S3, J3, S4, J4, S5, J5.
    unfold running in *.
    cbn [ping_active set_prev_is_standing]. cbn [count filter length
      is_thread_start is_thread_join] in *.
    rewrite Hrun in Hbal. lia.
Qed.

Lemma handle_no_detection_thread (s : State) :
  handle_ok s ->
  let r := handle_no_detection s in
  handle_ok (fst r) /\
  (count is_thread_start (snd r) + running s
   = count is_thread_join (snd r) + running (fst r))%nat.
Proof.
  unfold handle_ok, running, handle_no_detection, manage_sound_loop.
  intros H. cbn.
  destruct (ping_active s) eqn:E; cbn; rewrite ?E; cbn.
  - rewrite H. cbn. split; reflexivity.
  - split; [exact H | reflexivity].
Qed.

Lemma process_frame_thread (now : R) (f : Frame) (s s' : State)
    (evs : list Event) :
  handle_ok s -> process_frame now f s = Some (s', evs) ->
  handle_ok s' /\
  (count is_thread_start evs + running s
   = count is_thread_join evs + running s')%nat.
Proof.
  intros Hok Hf. destruct f as [lms |]; cbn [process_frame] in Hf.
  - destruct (process_landmarks_inv now lms s s' evs Hf) as (side & _ & E).
    pose proof (process_angles_thread now side (sit_angle side lms)
                  (stand_angle side lms) s Hok) as H.
    rewrite E in H. exact H.
  - injection Hf as Hf.
    pose proof (handle_no_detection_thread s Hok) as H.
    rewrite Hf in H. exact H.
Qed.

Lemma run_thread (frames : list (R * Frame)) (s s' : State)
    (evs : list Event) :
  handle_ok s -> run frames s = Some (s', evs) ->
  handle_ok s' /\
  (count is_thread_start evs + running s
   = count is_thread_join evs + running s')%nat.
Proof.
  revert s s' evs.
  induction frames as [| [now f] rest IH]; intros s s' evs Hok Hrun.
  - cbn in Hrun. injection Hrun as <- <-. split; [exact Hok | reflexivity].
  - cbn [run] in Hrun.
    destruct (process_frame now f s) as [[s1 e1] |] eqn:Ef; [| discriminate].
    destruct (run rest s1) as [[s2 e2] |] eqn:Er; [| discriminate].
    injection Hrun as <- <-.
    destruct (process_frame_thread now f s s1 e1 Hok Ef) as [Hok1 H1].
    destruct (IH s1 s2 e2 Hok1 Er) as [Hok2 H2].
    split; [exact Hok2 |]. rewrite !count_app. lia.
Qed.

(** In any run from the initial state, whatever the clock, the thread handle
    is kept exactly while the alert loop is active, and the alert thread was
    started exactly once more often than it was joined while the loop is
    active and equally often while it is not: at most one alert thread
    exists at any time. *)
Theorem run_alert_thread_balance (frames : list (R * Frame)) (s : State)
    (evs : list Event) :
  run frames initial_state = Some (s, evs) ->
  (ping_thread s = if ping_active s then Some ping_loop_thread else None) /\
  count is_thread_start evs
  = (count is_thread_join evs + if ping_active s then 1 else 0)%nat.
Proof.
  intros Hrun.
  assert (H0 : handle_ok initial_state) by reflexivity.
  destruct (run_thread frames initial_state s evs H0 Hrun) as [Hok Hbal].
  split; [exact Hok |]. unfold running in Hbal. cbn in Hbal. lia.
Qed.

(** A second frame without landmarks changes nothing: it only draws the
    "No detection" text again. *)
Theorem handle_no_detection_idempotent (s : State) :
  handle_no_detection (fst (handle_no_detection s))
  = (fst (handle_no_detection s), [draw_text NoDetection]).
Proof.
  unfold handle_no_detection, manage_sound_loop. cbn.
  destruct (ping_active s) eqn:E; cbn; [destruct (ping_thread s); cbn |];
    rewrite ?E; reflexivity.
Qed.

Lemma run_alert_thread_balance_witness :
  exists s evs,
    run [(100, Some sitting_slouched)] initial_state = Some (s, evs) /\
    (ping_thread s = if ping_active s then Some ping_loop_thread else None) /\
    count is_thread_start evs
    = (count is_thread_join evs + if ping_active s then 1 else 0)%nat.
Proof.
  destruct (run [(100, Some sitting_slouched)] initial_state)
    as [[s evs] |] eqn:E.
  - exists s, evs. split; [reflexivity |].
    exact (run_alert_thread_balance _ s evs E).
  - exfalso. revert E. unfold initial_state. eval_run. discriminate.
Defined.

(** ** The stretch reminder *)

Lemma steps_stretch (now sit : R) (is_sit is_stand b : bool) (s : State) :
  (stretch_prompted (sitting_timer now is_sit is_stand s)
   = if is_stand then false
     else match sitting_start_time s with
          | Some _ => stretch_prompted s
          | None => if is_sit then false else stretch_prompted s
          end) /\
  (stretch_prompted (fst (stand_up_transition now is_stand s))
   = stretch_prompted s /\
   count is_stretch_reminder (snd (stand_up_transition now is_stand s))
   = 0%nat) /\
  (stretch_prompted (fst (posture_check now sit is_stand s))
   = stretch_prompted s /\
   count is_stretch_reminder (snd (posture_check now sit is_stand s))
   = 0%nat) /\
  (stretch_prompted (fst (stretch_prompt b s)) = (b || stretch_prompted s) /\
   count is_stretch_reminder (snd (stretch_prompt b s))
   = if b && negb (stretch_prompted s) then 1%nat else 0%nat) /\
  count is_stretch_reminder (exceeded_notice b s) = 0%nat /\
  count is_stretch_reminder (snd (manage_sound_loop s b)) = 0%nat.
Proof.
  split; [| split; [| split; [| split; [| split]]]].
  - unfold sitting_timer.
    destruct is_sit, is_stand, (sitting_start_time s); reflexivity.
  - unfold stand_up_transition.
    destruct (is_stand && negb (prev_is_standing s)); cbn;
      split; reflexivity.
  - unfold posture_check.
    destruct (check_paused now s); [cbn; split; reflexivity |].
    destruct (bad_angle sit); [| destruct is_stand; cbn; split; reflexivity].
    cbv zeta. destruct ((3 <=? _)%Z && _); cbn; split; reflexivity.
  - unfold stretch_prompt.
    destruct b, (stretch_prompted s) eqn:E; cbn; rewrite ?E; split;
      reflexivity.
  - unfold exceeded_notice. destruct b, (ping_active s); reflexivity.
  - unfold manage_sound_loop.
    destruct b, (ping_active s); cbn; try reflexivity.
    destruct (ping_thread s); reflexivity.
Qed.

(** The stretch flag and the reminder of a frame with landmarks, in terms of
    the state the frame starts in. *)
Lemma process_angles_stretch (now : R) (side : Side) (sit std0 : R)
    (s : State) :
  let r := process_angles now side sit std0 s in
  let before :=
    if is_stand_of std0 then false
    else match sitting_start_time s with
         | Some _ => stretch_prompted s
         | None => if is_sit_of sit std0 then false else stretch_prompted s
         end in
  let st := stretch_time now (is_sit_of sit std0) (fst r) in
  stretch_prompted (fst r) = (st || before) /\
  count is_stretch_reminder (snd r)
  = if st && negb before then 1%nat else 0%nat.
Proof.
  rewrite process_angles_unfold. cbv zeta.
  set (is_stand := is_stand_of std0). set (is_sit := is_sit_of sit std0).
  set (s1 := sitting_timer now is_sit is_stand s).
  set (r2 := stand_up_transition now is_stand s1).
  set (r3 := posture_check now sit is_stand (fst r2)).
  set (st := stretch_time now is_sit (fst r3)).
  set (r4 := stretch_prompt st (fst r3)).
  set (ex := (MAX_COUNTER <=? bad_posture_count (fst r4))%Z).
  set (r5 := manage_sound_loop (fst r4) (st || ex)).
  destruct (steps_stretch now sit is_sit is_stand st s) as (P1 & _).
  destruct (steps_stretch now sit is_sit is_stand st s1)
    as (_ & (P2 & C2) & _).
  destruct (steps_stretch now sit is_sit is_stand st (fst r2))
    as (_ & _ & (P3 & C3) & _).
  destruct (steps_stretch now sit is_sit is_stand st (fst r3))
    as (_ & _ & _ & (P4 & C4) & _).
  destruct (steps_stretch now sit is_sit is_stand ex (fst r4))
    as (_ & _ & _ & _ & C5 & _).
  destruct (steps_stretch now sit is_sit is_stand (st || ex) (fst r4))
    as (_ & _ & _ & _ & _ & C6).
  destruct (manage_sound_loop_keeps (fst r4) (st || ex))
    as (_ & _ & _ & K6s & K6p & _).
  destruct (stretch_prompt_keeps st (fst r3)) as (_ & _ & _ & K4s & _).
  fold s1 in P1. fold r2 in P2, C2. fold r3 in P3, C3. fold r4 in P4, C4, K4s.
  fold r5 in C6, K6s, K6p.
  cbn [fst snd stretch_prompted set_prev_is_standing].
  assert (Est : stretch_time now is_sit (set_prev_is_standing is_stand (fst r5))
                = st).
  { apply stretch_time_ext. cbn [sitting_start_time set_prev_is_standing].
    rewrite K6s, K4s. reflexivity. }
  rewrite Est, K6p, P4, P3, P2, P1.
  rewrite !count_app, C2, C3, C4, C5, C6, P3, P2, P1.
  split; [reflexivity |].
  cbn. rewrite !Nat.add_0_r. reflexivity.
Qed.

Lemma truthy_some (o : option R) (t : R) : truthy o = Some t -> o = Some t.
Proof.
  unfold truthy. destruct o as [u |]; [| discriminate].
  destruct (Reqb u 0); [discriminate | trivial].
Qed.

(** The stretch reminder is printed at most once in a frame and only on a
    frame classified as sitting whose sitting time has reached 3600 seconds;
    it sets [stretch_prompted], and while that flag is set and the sitting
    timer runs, no frame other than a standing one prints it again. *)
Theorem stretch_reminder_once (now : R) (lms : list Landmark) (side : Side)
    (s s' : State) (evs : list Event) :
  choose_side lms VIS_THRESH = Some side ->
  process_landmarks now lms s = Some (s', evs) ->
  let sit := sit_angle side lms in
  let std := stand_angle side lms in
  (count is_stretch_reminder evs <= 1)%nat /\
  (count is_stretch_reminder evs = 1%nat ->
   stretch_prompted s' = true /\ is_sit_of sit std = true /\
   exists t, sitting_start_time s' = Some t /\ 3600 <= now - t) /\
  (stretch_prompted s = true -> sitting_start_time s <> None ->
   is_stand_of std = false ->
   count is_stretch_reminder evs = 0%nat /\ stretch_prompted s' = true).
Proof.
  intros Hside Hp sit std.
  destruct (process_landmarks_side now lms side s s' evs Hside Hp) as [-> ->].
  fold sit std.
  destruct (process_angles_stretch now side sit std s) as [Ep Ec].
  cbv zeta in Ep, Ec. rewrite Ep, Ec. clear Ep Ec.
  set (r := process_angles now side sit std s).
  split; [| split].
  - destruct (_ && negb _); lia.
  - intros H.
    destruct (stretch_time now (is_sit_of sit std) (fst r)) eqn:Est;
      [| discriminate].
    split; [reflexivity |].
    unfold stretch_time in Est. apply andb_true_iff in Est.
    destruct Est as [Hsit Hlong]. split; [exact Hsit |].
    destruct (truthy (sitting_start_time (fst r))) as [t |] eqn:Et;
      [| discriminate].
    exists t. split; [apply truthy_some; exact Et |].
    apply Rleb_spec in Hlong. exact Hlong.
  - intros Hsp Hsst Hstand. rewrite Hstand.
    destruct (sitting_start_time s); [| contradiction Hsst; reflexivity].
    rewrite Hsp. rewrite andb_false_r, orb_true_r. split; reflexivity.
Qed.

Lemma stretch_reminder_once_witness :
  let s0 := mkState 0 0 0 (Some 100) false false None None false in
  let r := process_angles 3700 Left 180 90 s0 in
  stretch_prompted (fst r) = true /\
  is_sit_of (sit_angle Left sitting_upright)
            (stand_angle Left sitting_upright) = true /\
  exists t, sitting_start_time (fst r) = Some t /\ 3600 <= 3700 - t.
Proof.
  cbv zeta.
  destruct sitting_upright_measures as (Hside & Hsit & Hstd).
  refine (proj1 (proj2 (stretch_reminder_once 3700 sitting_upright Left
                   (mkState 0 0 0 (Some 100) false false None None false)
                   _ _ Hside _)) _).
  - rewrite sitting_upright_frame. rewrite <- surjective_pairing.
    reflexivity.
  - eval_frame. reflexivity.
Defined.

(** ** The counters over frames *)

(** A frame raises a [bad_posture_count] that is not negative by at most
    one, and lowers it only when it is a stand-up edge, on which the
    stand-up cue is played. *)
Theorem bad_posture_count_change (now : R) (f : Frame) (s s' : State)
    (evs : list Event) :
  (0 <= bad_posture_count s)%Z ->
  process_frame now f s = Some (s', evs) ->
  (bad_posture_count s' <= bad_posture_count s + 1)%Z /\
  ((bad_posture_count s' < bad_posture_count s)%Z ->
   count (is_sound reset_wav) evs = 1%nat /\
   (bad_posture_count s' = 0 \/ bad_posture_count s' = 1)%Z).
Proof.
  intros Hnn Hf. destruct f as [lms |]; cbn [process_frame] in Hf.
  - destruct (process_landmarks_inv now lms s s' evs Hf) as (side & _ & E).
    destruct (process_angles_effect now side (sit_angle side lms)
                (stand_angle side lms) s)
      as (_ & _ & _ & Eb & _ & _ & Er & _).
    rewrite E in Eb, Er. cbn [fst snd] in Eb, Er. rewrite Eb, Er.
    destruct (stand_up_edge _ s), (detection_fires now _ _ s);
      cbv beta iota;
      (split; [lia | intros H; first [lia | split; [reflexivity | lia]]]).
  - injection Hf as Hf.
    destruct (handle_no_detection_effect s) as (_ & _ & _ & _ & _ & Eb & _).
    rewrite Hf in Eb. cbn [fst] in Eb. rewrite Eb.
    split; [lia | intros H; lia].
Qed.

Lemma bad_posture_count_change_witness :
  let s0 := mkState 2 0 50 (Some 40) false false None None false in
  let r := process_angles 100 Left 90 180 s0 in
  (bad_posture_count (fst r) <= 2 + 1)%Z /\
  ((bad_posture_count (fst r) < 2)%Z ->
   count (is_sound reset_wav) (snd r) = 1%nat /\
   (bad_posture_count (fst r) = 0 \/ bad_posture_count (fst r) = 1)%Z).
Proof.
  cbv zeta.
  apply (bad_posture_count_change 100 (Some standing_slouched)
           (mkState 2 0 50 (Some 40) false false None None false)).
  - cbn. lia.
  - cbn [process_frame]. rewrite standing_slouched_frame.
    rewrite <- surjective_pairing. reflexivity.
Defined.

(** With a positive clock reading, the short siren is played at most once in
    a frame, and when it is played the frame is not a stand-up edge (the
    stand-up cue is not played in it), is not paused, shows a sit angle
    other than 0 below 130, follows at least two counted frames and comes at
    least 5 seconds after the last detection; the detection time is then
    [now] and the consecutive count 0. *)
Theorem siren_only_when (now : R) (lms : list Landmark) (side : Side)
    (s s' : State) (evs : list Event) :
  0 < now ->
  choose_side lms VIS_THRESH = Some side ->
  process_landmarks now lms s = Some (s', evs) ->
  let sit := sit_angle side lms in
  (count (is_sound siren_short_wav) evs <= 1)%nat /\
  (count (is_sound siren_short_wav) evs = 1%nat ->
   count (is_sound reset_wav) evs = 0%nat /\
   count is_paused_text evs = 0%nat /\
   sit <> 0 /\ sit < 130 /\
   (2 <= consecutive_bad_posture s)%Z /\
   5 <= now - last_detection_time s /\
   last_detection_time s' = now /\
   consecutive_bad_posture s' = 0%Z /\
   bad_posture_count s' = (bad_posture_count s + 1)%Z).
Proof.
  intros Hnow Hside Hp sit.
  destruct (process_landmarks_side now lms side s s' evs Hside Hp) as [-> ->].
  fold sit. set (std := stand_angle side lms).
  destruct (process_angles_effect now side sit std s)
    as (_ & _ & _ & Eb & El & Ec & Er & Eq & Et & _).
  rewrite Eb, El, Ec, Er, Eq, Et. clear Eb El Ec Er Eq Et.
  destruct (detection_fires now sit std s) eqn:Ef; [| split; [lia | discriminate]].
  split; [lia |]. intros _.
  apply detection_fires_spec in Ef.
  destruct Ef as (Hsup & Hlt & Hne & Hc & Ht).
  rewrite (unsuppressed_no_edge now std s Hnow Hsup), Hsup.
  assert (Hb : bad_angle sit = true) by (apply bad_angle_spec; tauto).
  rewrite Hb.
  unfold POSTURE_THRESHOLD in Hlt. unfold DETECTION_COOLDOWN in Ht.
  repeat split; try reflexivity; try assumption; lia.
Qed.

Lemma siren_only_when_witness :
  let s0 := mkState 0 2 0 (Some 100) false false None None false in
  let r := process_angles 102 Left 90 90 s0 in
  (count (is_sound siren_short_wav) (snd r) <= 1)%nat /\
  (count (is_sound siren_short_wav) (snd r) = 1%nat ->
   count (is_sound reset_wav) (snd r) = 0%nat /\
   count is_paused_text (snd r) = 0%nat /\
   sit_angle Left sitting_slouched <> 0 /\
   sit_angle Left sitting_slouched < 130 /\
   (2 <= 2)%Z /\ 5 <= 102 - 0 /\
   last_detection_time (fst r) = 102 /\
   consecutive_bad_posture (fst r) = 0%Z /\
   bad_posture_count (fst r) = (0 + 1)%Z).
Proof.
  cbv zeta.
  apply (siren_only_when 102 sitting_slouched Left
           (mkState 0 2 0 (Some 100) false false None None false)).
  - lra.
  - exact (proj1 sitting_slouched_measures).
  - rewrite sitting_slouched_frame. rewrite <- surjective_pairing.
    reflexivity.
Defined.

(** After a frame without landmarks, the next frame classified as standing
    is always treated as a stand-up edge, also when the person was standing
    before the gap: the stand-up cue is played, the stand-up time becomes
    [now] and [bad_posture_count] is 0 after it. *)
Theorem standing_after_no_detection (now : R) (lms : list Landmark)
    (side : Side) (s s' : State) (evs : list Event) :
  0 < now ->
  choose_side lms VIS_THRESH = Some side ->
  process_landmarks now lms (fst (handle_no_detection s)) = Some (s', evs) ->
  is_stand_of (stand_angle side lms) = true ->
  count (is_sound reset_wav) evs = 1%nat /\
  stand_up_time s' = Some now /\
  bad_posture_count s' = 0%Z /\
  count is_paused_text evs = 1%nat.
Proof.
  intros Hnow Hside Hp Hstand.
  set (s0 := fst (handle_no_detection s)) in *.
  destruct (process_landmarks_side now lms side s0 s' evs Hside Hp) as [-> ->].
  set (sit := sit_angle side lms). set (std := stand_angle side lms) in *.
  destruct (handle_no_detection_effect s) as (_ & _ & _ & Ev & _).
  fold s0 in Ev.
  assert (He : stand_up_edge std s0 = true)
    by (unfold stand_up_edge; rewrite Hstand, Ev; reflexivity).
  assert (Hsup : suppressed now std s0 = true)
    by (rewrite suppressed_spec, He by exact Hnow; reflexivity).
  assert (Hf : detection_fires now sit std s0 = false)
    by (unfold detection_fires; rewrite Hsup; reflexivity).
  destruct (process_angles_effect now side sit std s0)
    as (_ & Eu & _ & Eb & _ & _ & Er & _ & Et & _).
  rewrite Eu, Eb, Er, Et, He, Hf, Hsup. repeat split; reflexivity.
Qed.

Lemma standing_after_no_detection_witness :
  let s1 := mkState 2 0 50 None false true (Some 40) None false in
  let r := process_angles 100 Left 90 180 (fst (handle_no_detection s1)) in
  count (is_sound reset_wav) (snd r) = 1%nat /\
  stand_up_time (fst r) = Some 100 /\
  bad_posture_count (fst r) = 0%Z /\
  count is_paused_text (snd r) = 1%nat.
Proof.
  cbv zeta.
  destruct standing_slouched_measures as (Hside & Hsit & Hstd).
  apply (standing_after_no_detection 100 standing_slouched Left
           (mkState 2 0 50 None false true (Some 40) None false)).
  - lra.
  - exact Hside.
  - rewrite standing_slouched_frame. rewrite <- surjective_pairing.
    reflexivity.
  - rewrite Hstd. unfold is_stand_of, fold_std, STAND_THRESHOLD.
    eval_cmp. reflexivity.
Defined.

(** Once [bad_posture_count] has reached 3, every frame with landmarks that
    is not a stand-up edge leaves the count at 3 or more and the alert loop
    active, whatever posture the frame shows: a good posture does not stop
    the alert. *)
Theorem alert_persists (now : R) (lms : list Landmark) (side : Side)
    (s s' : State) (evs : list Event) :
  choose_side lms VIS_THRESH = Some side ->
  process_landmarks now lms s = Some (s', evs) ->
  (3 <= bad_posture_count s)%Z ->
  stand_up_edge (stand_angle side lms) s = false ->
  (3 <= bad_posture_count s')%Z /\ ping_active s' = true /\
  count is_thread_join evs = 0%nat.
Proof.
  intros Hside Hp Hc He.
  destruct (process_landmarks_side now lms side s s' evs Hside Hp) as [-> ->].
  set (sit := sit_angle side lms). set (std := stand_angle side lms) in *.
  destruct (process_angles_effect now side sit std s)
    as (_ & _ & _ & Eb & _ & _ & _ & _ & _ & Ea).
  rewrite He in Eb.
  assert (Hc' : (3 <= bad_posture_count
                        (fst (process_angles now side sit std s)))%Z)
    by (rewrite Eb; destruct (detection_fires now sit std s); lia).
  assert (Ha : ping_active (fst (process_angles now side sit std s)) = true).
  { rewrite Ea. apply orb_true_iff. right. apply Z.leb_le. exact Hc'. }
  split; [exact Hc' |]. split; [exact Ha |].
  (* no join: the loop is asked to be active *)
  rewrite process_angles_unfold. cbv zeta. cbn [snd].
  rewrite process_angles_unfold in Ha. cbv zeta in Ha. cbn [fst] in Ha.
  cbn [ping_active set_prev_is_standing] in Ha.
  rewrite manage_sound_loop_active in Ha.
  rewrite Ha.
  destruct (steps_keep_thread now sit (is_sit_of sit std) (is_stand_of std)
              true (sitting_timer now (is_sit_of sit std) (is_stand_of std) s))
    as (_ & (_ & _ & J2) & _).
  rewrite !count_app, J2.
  match goal with
  | |- context [posture_check now sit ?b ?x] =>
      destruct (steps_keep_thread now sit (is_sit_of sit std) b true x)
        as (_ & _ & (_ & _ & J3) & _); rewrite J3
  end.
  match goal with
  | |- context [stretch_prompt ?b ?x] =>
      destruct (steps_keep_thread now sit (is_sit_of sit std)
                  (is_stand_of std) b x)
        as (_ & _ & _ & (_ & _ & J4) & _); rewrite J4
  end.
  match goal with
  | |- context [exceeded_notice ?b ?x] =>
      destruct (steps_keep_thread now sit (is_sit_of sit std)
                  (is_stand_of std) b x)
        as (_ & _ & _ & _ & (_ & J5)); rewrite J5
  end.
  unfold manage_sound_loop. cbn [negb andb].
  match goal with
  | |- context [if ?c then _ else (?s0, [])] => destruct c
  end; reflexivity.
Qed.

Lemma alert_persists_witness :
  let s0 := mkState 3 0 112 (Some 100) false false None
                    (Some ping_loop_thread) true in
  let r := process_angles 200 Left 180 90 s0 in
  (3 <= bad_posture_count (fst r))%Z /\ ping_active (fst r) = true /\
  count is_thread_join (snd r) = 0%nat.
Proof.
  cbv zeta.
  destruct sitting_upright_measures as (Hside & Hsit & Hstd).
  apply (alert_persists 200 sitting_upright Left
           (mkState 3 0 112 (Some 100) false false None
                    (Some ping_loop_thread) true)).
  - exact Hside.
  - rewrite sitting_upright_frame. rewrite <- surjective_pairing.
    reflexivity.
  - cbn. lia.
  - rewrite Hstd. unfold stand_up_edge, is_stand_of, fold_std, STAND_THRESHOLD.
    eval_cmp. reflexivity.
Defined.

(** ** States of a run *)

Lemma process_angles_counts_ok (now : R) (side : Side) (sit std0 : R)
    (s : State) :
  (0 <= consecutive_bad_posture s)%Z ->
  (stretch_prompted s = true -> sitting_start_time s <> None) ->
  let r := process_angles now side sit std0 s in
  (0 <= consecutive_bad_posture (fst r))%Z /\
  (stretch_prompted (fst r) = true -> sitting_start_time (fst r) <> None).
Proof.
  intros Hc Hp. cbv zeta.
  destruct (process_angles_effect now side sit std0 s)
    as (_ & _ & Es & _ & _ & Ec & _).
  destruct (process_angles_stretch now side sit std0 s) as [Ep _].
  cbv zeta in Ep. split.
  - rewrite Ec.
    destruct (suppressed now std0 s), (bad_angle sit),
      (detection_fires now sit std0 s); lia.
  - rewrite Ep. intros H. apply orb_true_iff in H. destruct H as [H | H].
    + unfold stretch_time in H. apply andb_true_iff in H.
      destruct H as [_ H].
      destruct (sitting_start_time (fst (process_angles now side sit std0 s)));
        [discriminate | discriminate H].
    + rewrite Es. destruct (is_stand_of std0); [discriminate H |].
      destruct (sitting_start_time s); [discriminate |].
      destruct (is_sit_of sit std0); [discriminate H |].
      exfalso. apply (Hp H). reflexivity.
Qed.

(** In every state of a run under a positive clock that never goes back,
    both counters are non-negative, the last detection time lies between 0
    and the clock reading of the last frame, the stored sitting and stand-up
    times are positive clock readings of the past, and the stretch flag is
    set only while the sitting timer runs. *)
Theorem reachable_state_bounds (t : R) (s : State) :
  reachable t s ->
  (0 <= bad_posture_count s)%Z /\
  (0 <= consecutive_bad_posture s)%Z /\
  0 <= last_detection_time s <= t /\
  (forall u, sitting_start_time s = Some u -> 0 < u <= t) /\
  (forall u, stand_up_time s = Some u -> 0 < u <= t) /\
  (stretch_prompted s = true -> sitting_start_time s <> None).
Proof.
  intros Hr.
  destruct (reachable_timestamps_ok t s Hr) as (Hu & Hs & Hb & _).
  assert (H : (0 <= consecutive_bad_posture s)%Z /\
              0 <= last_detection_time s <= t /\
              (stretch_prompted s = true -> sitting_start_time s <> None)).
  { clear Hu Hs Hb.
    induction Hr as [| t now f s s1 evs Hr IH Ht Hnow Hf].
    - cbn. repeat split; try lia; try lra; try discriminate.
    - destruct IH as (Hc & Hl & Hp).
      destruct f as [lms |]; cbn [process_frame] in Hf.
      + destruct (process_landmarks_inv now lms s s1 evs Hf)
          as (side & _ & E).
        destruct (process_angles_counts_ok now side (sit_angle side lms)
                    (stand_angle side lms) s Hc Hp) as [Hc1 Hp1].
        destruct (process_angles_effect now side (sit_angle side lms)
                    (stand_angle side lms) s)
          as (_ & _ & _ & _ & El & _).
        rewrite E in Hc1, Hp1, El. cbn [fst] in Hc1, Hp1, El.
        split; [exact Hc1 |]. split; [| exact Hp1].
        rewrite El. destruct (detection_fires now _ _ s); lra.
      + injection Hf as Hf.
        destruct (handle_no_detection_effect s)
          as (_ & Ep & Ec & _ & _ & _ & _ & El & _).
        rewrite Hf in Ep, Ec, El. cbn [fst] in Ep, Ec, El.
        rewrite Ep, Ec, El. split; [lia |]. split; [lra | discriminate]. }
  destruct H as (Hc & Hl & Hp).
  repeat split; try assumption; try (apply Hs; assumption);
    try (apply Hu; assumption); lra.
Qed.

Lemma reachable_after_standing :
  reachable 100 (mkState 0 0 0 None false true (Some 100) None false).
Proof.
  assert (E : process_angles 100 Left 90 180 initial_state
              = (mkState 0 0 0 None false true (Some 100) None false,
                 snd (process_angles 100 Left 90 180 initial_state))).
  { rewrite (surjective_pairing
               (process_angles 100 Left 90 180 initial_state)) at 1.
    f_equal. unfold initial_state. eval_frame. reflexivity. }
  refine (reach_frame 0 100 (Some standing_slouched) initial_state _ _
                      reach_init _ _ _).
  - lra.
  - lra.
  - cbn [process_frame]. rewrite standing_slouched_frame, E. reflexivity.
Qed.

Lemma reachable_state_bounds_witness :
  let s1 := mkState 0 0 0 None false true (Some 100) None false in
  (0 <= bad_posture_count s1)%Z /\
  (0 <= consecutive_bad_posture s1)%Z /\
  0 <= last_detection_time s1 <= 100 /\
  (forall u, sitting_start_time s1 = Some u -> 0 < u <= 100) /\
  (forall u, stand_up_time s1 = Some u -> 0 < u <= 100) /\
  (stretch_prompted s1 = true -> sitting_start_time s1 <> None).
Proof.
  cbv zeta. exact (reachable_state_bounds 100 _ reachable_after_standing).
Defined.

(** ** The timer text *)

Lemma trunc_IZR (z : Z) : trunc (IZR z) = z.
Proof.
  unfold trunc. destruct (Rleb 0 (IZR z)); [apply ZfloorZ |].
  rewrite <- opp_IZR, ZfloorZ. lia.
Qed.

Lemma trunc_nonneg (r : R) : 0 <= r -> trunc r = Zfloor r.
Proof. intros H. unfold trunc. rewrite Rleb_true by exact H. reflexivity. Qed.

Lemma Zfloor_div (x : R) (k : Z) :
  (0 < k)%Z -> Zfloor (x / IZR k) = (Zfloor x / k)%Z.
Proof.
  intros Hk. apply Zfloor_eq.
  pose proof (Zfloor_bound x) as [Hlo Hhi].
  pose proof (Z.div_mod (Zfloor x) k ltac:(lia)) as Hdm.
  pose proof (Z.mod_pos_bound (Zfloor x) k Hk) as Hm.
  set (n := Zfloor x) in *. set (q := (n / k)%Z) in *.
  set (m := (n mod k)%Z) in *.
  assert (Hn : IZR n = IZR k * IZR q + IZR m).
  { rewrite Hdm at 1. rewrite plus_IZR, mult_IZR. reflexivity. }
  clearbody n q m.
  assert (Hk' : 0 < IZR k) by (apply IZR_lt; exact Hk).
  assert (Hm0 : 0 <= IZR m) by (apply IZR_le; lia).
  assert (Hm1 : IZR m + 1 <= IZR k).
  { rewrite <- plus_IZR. apply IZR_le. lia. }
  assert (Hi : 0 < / IZR k) by (apply Rinv_0_lt_compat; exact Hk').
  assert (Hone : IZR k * / IZR k = 1) by (apply Rinv_r; lra).
  unfold Rdiv. split.
  - assert (H : 0 <= (x - IZR k * IZR q) * / IZR k)
      by (apply Rmult_le_pos; lra).
    replace ((x - IZR k * IZR q) * / IZR k)
      with (x * / IZR k - IZR q * (IZR k * / IZR k)) in H by ring.
    rewrite Hone in H. lra.
  - assert (H : 0 < (IZR k * IZR q + IZR k - x) * / IZR k)
      by (apply Rmult_lt_0_compat; lra).
    replace ((IZR k * IZR q + IZR k - x) * / IZR k)
      with ((IZR q + 1) * (IZR k * / IZR k) - x * / IZR k) in H by ring.
    rewrite Hone in H. lra.
Qed.

Lemma Zfloor_pymod (x : R) (k : Z) :
  (0 < k)%Z -> Zfloor (pymod x (IZR k)) = (Zfloor x mod k)%Z.
Proof.
  intros Hk. unfold pymod. rewrite Zfloor_div by exact Hk.
  replace (x - IZR k * IZR (Zfloor x / k))
    with (x + IZR (- (k * (Zfloor x / k)))).
  2: { rewrite opp_IZR, mult_IZR. ring. }
  rewrite Zfloor_addz.
  pose proof (Z.div_mod (Zfloor x) k ltac:(lia)). lia.
Qed.

Lemma pymod_nonneg (x : R) (k : Z) : (0 < k)%Z -> 0 <= pymod x (IZR k).
Proof.
  intros Hk. unfold pymod.
  pose proof (Zfloor_bound (x / IZR k)) as [Hlo _].
  assert (Hk' : 0 < IZR k) by (apply IZR_lt; exact Hk).
  assert (Hx : x = IZR k * (x / IZR k)) by (field; lra).
  nra.
Qed.

Lemma hms_fields_floor (sec : R) :
  hms_hours sec = (Zfloor sec / 3600)%Z /\
  hms_minutes sec = ((Zfloor sec mod 3600) / 60)%Z /\
  hms_seconds sec = (Zfloor sec mod 60)%Z.
Proof.
  split; [| split].
  - unfold hms_hours, floordiv. rewrite trunc_IZR.
    apply (Zfloor_div sec 3600). lia.
  - unfold hms_minutes, floordiv. rewrite trunc_IZR.
    rewrite (Zfloor_div _ 60) by lia.
    rewrite (Zfloor_pymod sec 3600) by lia. reflexivity.
  - unfold hms_seconds.
    rewrite trunc_nonneg by (apply (pymod_nonneg sec 60); lia).
    apply (Zfloor_pymod sec 60). lia.
Qed.



Lemma fmt02d_two_digits (z : Z) :
  (0 <= z < 100)%Z ->
  fmt02d z = String (digit (z / 10)) (String (digit (z mod 10)) EmptyString).
Proof.
  intros Hz. rewrite <- (Z2Nat.id z) by lia.
  assert (Hn : (Z.to_nat z < 100)%nat) by lia.
  generalize dependent (Z.to_nat z). clear z Hz. intros n Hn.
  do 100 (destruct n as [| n]; [vm_compute; reflexivity |]).
  lia.
Qed.

(** For a time from 0 up to, but not including, 100 hours the text of [hms]
    is eight characters long: two decimal digits for each field, separated
    by colons. *)
Theorem hms_text (sec : R) :
  0 <= sec < 360000 ->
  let h := hms_hours sec in
  let m := hms_minutes sec in
  let s := hms_seconds sec in
  hms sec
  = String (digit (h / 10)) (String (digit (h mod 10)) (String ":"
     (String (digit (m / 10)) (String (digit (m mod 10)) (String ":"
       (String (digit (s / 10)) (String (digit (s mod 10))
          EmptyString))))))) /\
  String.length (hms sec) = 8%nat.
Proof.
  intros [Hlo Hhi]. cbv zeta.
  destruct (hms_fields_floor sec) as (Hh & Hm & Hs).
  assert (Hn : (0 <= Zfloor sec < 360000)%Z).
  { split.
    - apply Zfloor_lub. exact Hlo.
    - pose proof (Zfloor_bound sec) as [Hb _].
      apply lt_IZR. lra. }
  assert (Hh' : (0 <= hms_hours sec < 100)%Z).
  { rewrite Hh. split; [apply Z.div_pos; lia |].
    apply Z.div_lt_upper_bound; lia. }
  unfold hms.
  rewrite (fmt02d_two_digits (hms_hours sec)) by exact Hh'.
  assert (Hm' : (0 <= hms_minutes sec < 100)%Z).
  { rewrite Hm.
    pose proof (Z.mod_pos_bound (Zfloor sec) 3600 ltac:(lia)).
    split; [apply Z.div_pos; lia | apply Z.div_lt_upper_bound; lia]. }
  assert (Hs' : (0 <= hms_seconds sec < 100)%Z).
  { rewrite Hs. pose proof (Z.mod_pos_bound (Zfloor sec) 60 ltac:(lia)).
    lia. }
  rewrite (fmt02d_two_digits (hms_minutes sec)) by exact Hm'.
  rewrite (fmt02d_two_digits (hms_seconds sec)) by exact Hs'.
  split; reflexivity.
Qed.

Lemma hms_text_witness :
  hms 3725
  = String (digit (hms_hours 3725 / 10))
      (String (digit (hms_hours 3725 mod 10)) (String ":"
        (String (digit (hms_minutes 3725 / 10))
          (String (digit (hms_minutes 3725 mod 10)) (String ":"
            (String (digit (hms_seconds 3725 / 10))
              (String (digit (hms_seconds 3725 mod 10))
                 EmptyString))))))) /\
  String.length (hms 3725) = 8%nat.
Proof. apply (hms_text 3725). lra. Defined.

(** In a run under a positive clock that never goes back, the timer drawn
    after a frame reads "Sitting" with the time since [sitting_start_time]
    exactly when the sitting timer is set after that frame, and the fixed
    text "Standing 00:00:00" otherwise; the time shown is not negative when
    the clock reading of the timer is not before that of the frame. *)
Theorem timer_text_of_run (tl now now' : R) (f : Frame) (s s1 : State)
    (evs : list Event) :
  reachable tl s -> tl <= now -> 0 < now -> now <= now' ->
  process_frame now f s = Some (s1, evs) ->
  match sitting_start_time s1 with
  | Some t =>
      timer_text now' s1 = ("Sitting " ++ hms (now' - t))%string /\
      0 <= now' - t
  | None => timer_text now' s1 = "Standing 00:00:00"%string
  end.
Proof.
  intros Hr Htl Hnow Hnow' Hf.
  pose proof (reach_frame tl now f s s1 evs Hr Htl Hnow Hf) as Hr1.
  apply reachable_timestamps_ok in Hr1. destruct Hr1 as (_ & Hs & _).
  unfold timer_text.
  destruct (sitting_start_time s1) as [t |]; [| reflexivity].
  destruct (Hs t eq_refl) as [Hpos Hle].
  rewrite truthy_positive by exact Hpos.
  split; [reflexivity | lra].
Qed.

Lemma timer_text_of_run_witness :
  let s1 := fst (process_angles 100 Left 180 90 initial_state) in
  match sitting_start_time s1 with
  | Some t =>
      timer_text 101 s1 = ("Sitting " ++ hms (101 - t))%string /\
      0 <= 101 - t
  | None => timer_text 101 s1 = "Standing 00:00:00"%string
  end.
Proof.
  cbv zeta.
  apply (timer_text_of_run 0 100 101 (Some sitting_upright) initial_state
           (fst (process_angles 100 Left 180 90 initial_state))
           (snd (process_angles 100 Left 180 90 initial_state)) reach_init).
  - lra.
  - lra.
  - lra.
  - cbn [process_frame]. rewrite sitting_upright_frame.
    rewrite <- surjective_pairing. reflexivity.
Defined.

(** ** The main loop *)

Lemma handler_events_app (a b : list Output) :
  handler_events (a ++ b) = handler_events a ++ handler_events b.
Proof.
  induction a as [| [e | text] a IH]; cbn; [reflexivity | |];
    rewrite IH; reflexivity.
Qed.

Lemma handler_events_map (evs : list Event) :
  handler_events (map handler_event evs) = evs.
Proof.
  induction evs as [| e evs IH]; cbn; [reflexivity |].
  rewrite IH. reflexivity.
Qed.

Lemma main_frame_handlers (now now' : R) (f : Frame) (s : State) :
  match main_frame now now' f s with
  | Some (s1, out) => process_frame now f s = Some (s1, handler_events out)
  | None => process_frame now f s = None
  end.
Proof.
  unfold main_frame.
  destruct (process_frame now f s) as [[s1 evs] |]; [| reflexivity].
  rewrite handler_events_app, handler_events_map. cbn.
  rewrite app_nil_r. reflexivity.
Qed.

Lemma main_loop_thread (frames : list (R * R * Frame)) (s s' : State)
    (out : list Output) :
  handle_ok s -> main_loop frames s = Some (s', out) ->
  handle_ok s' /\
  (count is_thread_start (handler_events out) + running s
   = count is_thread_join (handler_events out) + running s')%nat.
Proof.
  revert s s' out.
  induction frames as [| [[now now'] f] rest IH]; intros s s' out Hok Hm.
  - cbn in Hm. injection Hm as <- <-. split; [exact Hok | reflexivity].
  - cbn [main_loop] in Hm.
    pose proof (main_frame_handlers now now' f s) as H1.
    destruct (main_frame now now' f s) as [[s1 o1] |]; [| discriminate].
    destruct (main_loop rest s1) as [[s2 o2] |] eqn:Er; [| discriminate].
    injection Hm as <- <-.
    destruct (process_frame_thread now f s s1 _ Hok H1) as [Hok1 B1].
    destruct (IH s1 s2 o2 Hok1 Er) as [Hok2 B2].
    split; [exact Hok2 |].
    rewrite handler_events_app, !count_app. lia.
Qed.

(** When [main] ends without an exception, the alert loop is inactive, no
    thread handle is left in the state, and the alert thread has been joined
    as often as it was started: no alert thread outlives the session. *)
Theorem main_stops_alert (frames : list (R * R * Frame)) (s : State)
    (out : list Output) :
  main frames = Some (s, out) ->
  ping_active s = false /\ ping_thread s = None /\
  count is_thread_start (handler_events out)
  = count is_thread_join (handler_events out).
Proof.
  unfold main. intros Hm.
  destruct (main_loop frames initial_state) as [[s0 out0] |] eqn:El;
    [| discriminate].
  assert (H0 : handle_ok initial_state) by reflexivity.
  destruct (main_loop_thread frames initial_state s0 out0 H0 El)
    as [Hok0 B0].
  destruct (manage_sound_loop_thread s0 false Hok0) as [Hok1 B1].
  pose proof (manage_sound_loop_active s0 false) as Ha.
  destruct (manage_sound_loop s0 false) as [s1 e1].
  injection Hm as <- <-. cbn [fst snd] in *.
  split; [exact Ha |]. split.
  - unfold handle_ok in Hok1. rewrite Ha in Hok1. exact Hok1.
  - rewrite handler_events_app, handler_events_map, !count_app.
    unfold running in *. rewrite Ha in B1. cbn in B0. lia.
Qed.

Lemma main_stops_alert_witness :
  exists s out,
    main [(100, 100, Some sitting_slouched); (101, 101, None)]
    = Some (s, out) /\
    ping_active s = false /\ ping_thread s = None /\
    count is_thread_start (handler_events out)
    = count is_thread_join (handler_events out).
Proof.
  destruct (main [(100, 100, Some sitting_slouched); (101, 101, None)])
    as [[s out] |] eqn:E.
  - exists s, out. split; [reflexivity |].
    exact (main_stops_alert _ s out E).
  - exfalso. revert E. unfold main. cbn [main_loop].
    unfold main_frame at 1. cbn [process_frame].
    rewrite sitting_slouched_frame.
    destruct (process_angles 100 Left 90 90 initial_state) as [s1 e1].
    unfold main_frame. cbn [process_frame].
    destruct (handle_no_detection s1) as [s2 e2].
    destruct (manage_sound_loop s2 false). discriminate.
Defined.
